(** * KL-divergence loss operator (paddle/fluid/operators/kldiv_loss_op.cc)

    A shallow embedding of the operator definition file: shape inference of
    the forward and backward operators, the attribute schema, the kernel-type
    selection, the gradient-operator maker and the registrations made at the
    end of the file.  The framework classes the file builds on
    (InferShapeContext, ExecutionContext, the grad-op maker base class, the
    enforce macros) are modelled at the interface the operator uses. *)

From Stdlib Require Import ZArith String List Bool Lia.
From stdpp Require Import base option gmap strings list fin_maps.

Open Scope string_scope.

(** ** Shapes and attributes *)

(** framework::DDim: the ordered sequence of dimension sizes (int64_t each).
    A size that is not strictly positive (commonly -1) stands for a dimension
    unknown until runtime. *)
Abbreviation DDim := (list Z).

(** DDim::size() and DDim::operator[]: the operator only indexes below the
    rank; outside of it the model reads 0. *)
Definition DDim_size (d : DDim) : nat := length d.
Definition DDim_at (d : DDim) (i : nat) : Z := nth i d 0%Z.

(** framework::Attribute, restricted to the alternatives without floating
    point. *)
Inductive Attribute : Type :=
  | AttrBool (b : bool)
  | AttrInt (i : Z)
  | AttrString (s : string)
  | AttrInts (l : list Z)
  | AttrStrings (l : list string).

Abbreviation AttributeMap := (gmap string Attribute).

(** ** Errors

    Every failure of the file is a platform::EnforceNotMet exception built by
    one of the enforce macros; a constructor records the error class
    (NotFound or InvalidArgument) and the place that raised it, with the
    values its message prints. *)
Inductive EnforceNotMet : Type :=
  | NotFound_InOut (role name op_type : string)
  | NotFound_Var (name : string)
  | NotFound_Attr (name : string)
  | BadGet_Attr (name : string)
  | InvalidArgument_Rank (rank_x rank_target : nat)
  | InvalidArgument_Dim (i : nat) (x_i target_i : Z)
  | InvalidArgument_Reduction
  | NotFound_Kernel (op_type : string).

Inductive ErrorCode : Type := NOT_FOUND | INVALID_ARGUMENT.

Definition error_code (e : EnforceNotMet) : ErrorCode :=
  match e with
  | NotFound_InOut _ _ _ | NotFound_Var _ | NotFound_Attr _
  | NotFound_Kernel _ => NOT_FOUND
  | BadGet_Attr _ | InvalidArgument_Rank _ _ | InvalidArgument_Dim _ _ _
  | InvalidArgument_Reduction => INVALID_ARGUMENT
  end.

Inductive Result (A : Type) : Type :=
  | Ok (a : A)
  | Throw (e : EnforceNotMet).
Arguments Ok {A} a.
Arguments Throw {A} e.

(** The failure taxonomy of the specification. *)
Inductive Failure : Type :=
  | SchemaViolation
  | ShapeMismatch
  | NoKernelFound.

(** Modelled from the spec: the exception classes of the source are mapped to
    the specification's taxonomy by what the raising check is about.  A
    missing slot or variable, a rank disagreement and a dimension
    disagreement are ShapeMismatch; a missing, ill-typed or out-of-set
    attribute is SchemaViolation; a failed kernel lookup is NoKernelFound. *)
Definition classify (e : EnforceNotMet) : Failure :=
  match e with
  | NotFound_InOut _ _ _ | NotFound_Var _
  | InvalidArgument_Rank _ _ | InvalidArgument_Dim _ _ _ => ShapeMismatch
  | NotFound_Attr _ | BadGet_Attr _ | InvalidArgument_Reduction =>
      SchemaViolation
  | NotFound_Kernel _ => NoKernelFound
  end.

(** ** The shape-inference context *)

(** framework::InferShapeContext, as far as the operator uses it: the shape
    bound to each input slot, the shape currently bound to each output slot
    (a key is present exactly when the slot is), the attribute map, and
    whether the context is the runtime one (concrete shapes) or the
    graph-construction one.  The variables the slots name are not part of
    this view: each slot carries its own shape, and two slots bound to one
    variable are not represented. *)
Record InferShapeContext : Type := MkCtx {
  ctx_inputs : gmap string DDim;
  ctx_outputs : gmap string DDim;
  ctx_attrs : AttributeMap;
  ctx_is_runtime : bool
}.

(** The calls made on the context, in the order they are made. *)
Inductive CtxCall : Type :=
  | CallHasInput (name : string)
  | CallHasOutput (name : string)
  | CallGetInputDim (name : string)
  | CallAttrsGet (name : string)
  | CallSetOutputDim (name : string) (d : DDim).

Record InferState : Type := MkSt {
  st_ctx : InferShapeContext;
  st_calls : list CtxCall
}.

(** Computations over the context that may throw: the state reached so far
    is kept when an exception leaves the function. *)
Definition Infer (A : Type) : Type := InferState -> Result A * InferState.

Global Instance Infer_ret : MRet Infer := fun A a s => (Ok a, s).
Global Instance Infer_bind : MBind Infer := fun A B f m s =>
  match m s with
  | (Ok a, s') => f a s'
  | (Throw e, s') => (Throw e, s')
  end.

Definition throw {A : Type} (e : EnforceNotMet) : Infer A :=
  fun s => (Throw e, s).

Definition record (c : CtxCall) : Infer unit :=
  fun s => (Ok tt, MkSt (st_ctx s) (st_calls s ++ [c])%list).

(** A query that reads the context and leaves it as it is. *)
Definition inspect {A : Type} (f : InferShapeContext -> Result A) : Infer A :=
  fun s => (f (st_ctx s), s).

Definition lookup_var (m : gmap string DDim) (name : string) : Result DDim :=
  match m !! name with
  | Some d => Ok d
  | None => Throw (NotFound_Var name)
  end.

Definition HasInput (name : string) : Infer bool :=
  record (CallHasInput name) ;;
  inspect (fun c => Ok (bool_decide (is_Some (ctx_inputs c !! name)))).

Definition HasOutput (name : string) : Infer bool :=
  record (CallHasOutput name) ;;
  inspect (fun c => Ok (bool_decide (is_Some (ctx_outputs c !! name)))).

Definition GetInputDim (name : string) : Infer DDim :=
  record (CallGetInputDim name) ;;
  inspect (fun c => lookup_var (ctx_inputs c) name).

Definition IsRuntime : Infer bool :=
  inspect (fun c => Ok (ctx_is_runtime c)).

(** ctx->Attrs().Get<std::string>(name) *)
Definition Get_string (attrs : AttributeMap) (name : string) : Result string :=
  match attrs !! name with
  | Some (AttrString v) => Ok v
  | Some _ => Throw (BadGet_Attr name)
  | None => Throw (NotFound_Attr name)
  end.

Definition Attrs_Get_string (name : string) : Infer string :=
  record (CallAttrsGet name) ;;
  inspect (fun c => Get_string (ctx_attrs c) name).

Definition set_output (name : string) (d : DDim) (c : InferShapeContext)
  : InferShapeContext :=
  MkCtx (ctx_inputs c) (<[name := d]> (ctx_outputs c)) (ctx_attrs c)
        (ctx_is_runtime c).

(** SetOutputDim writes the shape of a bound output slot. *)
Definition SetOutputDim (name : string) (d : DDim) : Infer unit :=
  record (CallSetOutputDim name d) ;;
  inspect (fun c => lookup_var (ctx_outputs c) name) ;;
  (fun s => (Ok tt, MkSt (set_output name d (st_ctx s)) (st_calls s))) : Infer unit.

(** ** The enforce macros *)

(** PADDLE_ENFORCE_EQ(a, b, error): throws [error] unless a == b. *)
Definition PADDLE_ENFORCE_EQ {A : Type} `{EqDecision A} (a b : A)
    (e : EnforceNotMet) : Infer unit :=
  if bool_decide (a = b) then mret tt else throw e.

(** Modelled from the spec: the macro OP_INOUT_CHECK is defined outside this
    file; a required slot absent from the context makes shape inference
    fail, naming the role, the slot and the operator. *)
Definition OP_INOUT_CHECK (expr : Infer bool) (role name op_type : string)
  : Infer unit :=
  b ← expr; PADDLE_ENFORCE_EQ b true (NotFound_InOut role name op_type).

(** Modelled from the spec: framework::GradVarName is defined outside this
    file; the name of the gradient of a variable is the name followed by
    the suffix @GRAD (the file itself prints GradVarName("Loss") as
    Loss@GRAD). *)
Definition GradVarName (name : string) : string := name +:+ "@GRAD".

(** ** KLDivLossOp::InferShape *)

(** The loop over the dimensions, at index [i] with [n] indices left. *)
Fixpoint check_dims (dim_x dim_target : DDim) (i n : nat) : Infer unit :=
  match n with
  | O => mret tt
  | S n' =>
      rt ← IsRuntime;
      (if rt || ((0 <? DDim_at dim_x i)%Z && (0 <? DDim_at dim_target i)%Z)
       then PADDLE_ENFORCE_EQ (DDim_at dim_x i) (DDim_at dim_target i)
              (InvalidArgument_Dim i (DDim_at dim_x i) (DDim_at dim_target i))
       else mret tt) ;;
      check_dims dim_x dim_target (S i) n'
  end.

(** The local variable reduction_valid of InferShape: the comparisons of the
    attribute with the four accepted strings, in the order of the source. *)
Definition reduction_valid (reduction : string) : bool :=
  String.eqb "mean" reduction || String.eqb "sum" reduction ||
  String.eqb "batchmean" reduction || String.eqb "none" reduction.

Definition KLDivLossOp_InferShape : Infer unit :=
  OP_INOUT_CHECK (HasInput "X") "Input" "X" "KLDivLoss" ;;
  OP_INOUT_CHECK (HasInput "Target") "Input" "Target" "KLDivLoss" ;;
  OP_INOUT_CHECK (HasOutput "Loss") "Output" "Loss" "KLDivLoss" ;;
  dim_x ← GetInputDim "X";
  dim_target ← GetInputDim "Target";
  PADDLE_ENFORCE_EQ (DDim_size dim_x) (DDim_size dim_target)
    (InvalidArgument_Rank (DDim_size dim_x) (DDim_size dim_target)) ;;
  check_dims dim_x dim_target 0 (DDim_size dim_x) ;;
  reduction ← Attrs_Get_string "reduction";
  PADDLE_ENFORCE_EQ (reduction_valid reduction) true
    InvalidArgument_Reduction ;;
  if String.eqb "none" reduction
  then SetOutputDim "Loss" dim_x
  else SetOutputDim "Loss" [1%Z].

(** ** KLDivLossOpGrad::InferShape *)

Definition KLDivLossOpGrad_InferShape : Infer unit :=
  OP_INOUT_CHECK (HasInput "X") "Input" "X" "KLDivLossGrad" ;;
  OP_INOUT_CHECK (HasInput "Target") "Input" "Target" "KLDivLossGrad" ;;
  OP_INOUT_CHECK (HasInput (GradVarName "Loss")) "Input" "Loss@GRAD"
    "KLDivLossGrad" ;;
  dim_x ← GetInputDim "X";
  has ← HasOutput (GradVarName "X");
  if (has : bool) then SetOutputDim (GradVarName "X") dim_x else mret tt.

(** Running a shape inference on a context, from an empty call record. *)
Definition run_infer {A : Type} (m : Infer A) (c : InferShapeContext)
  : Result A * InferState :=
  m (MkSt c []).

(** ** Kernel types and the execution context *)

(** proto::VarType::Type, the data-type tags of tensors. *)
Inductive VarType : Type :=
  | BOOL | INT16 | INT32 | INT64 | FP16 | FP32 | FP64 | UINT8 | INT8.

(** platform::Place *)
Inductive Place : Type :=
  | CPUPlace
  | CUDAPlace (device : nat)
  | CUDAPinnedPlace.

Global Instance VarType_eq_dec : EqDecision VarType :=
  ltac:(solve_decision).
Global Instance Place_eq_dec : EqDecision Place :=
  ltac:(solve_decision).

(** framework::OpKernelType, built in this file from a data type and a
    place (layout and library keep their defaults). *)
Record OpKernelType : Type := MkKernelType {
  data_type_ : VarType;
  place_ : Place
}.

Global Instance OpKernelType_eq_dec : EqDecision OpKernelType :=
  ltac:(solve_decision).

(** framework::ExecutionContext, as far as kernel selection reads it: the
    place of the execution and the data type of the tensor bound to each
    input slot. *)
Record ExecutionContext : Type := MkExec {
  exec_place : Place;
  exec_dtypes : gmap string VarType
}.

Definition GetPlace (ctx : ExecutionContext) : Place := exec_place ctx.

(** OperatorWithKernel::IndicateVarDataType(ctx, name): the data type of the
    tensor bound to the input slot; it throws when there is none. *)
Definition IndicateVarDataType (ctx : ExecutionContext) (name : string)
  : Result VarType :=
  match exec_dtypes ctx !! name with
  | Some t => Ok t
  | None => Throw (NotFound_Var name)
  end.

Definition KLDivLossOp_GetExpectedKernelType (ctx : ExecutionContext)
  : Result OpKernelType :=
  match IndicateVarDataType ctx "X" with
  | Ok t => Ok (MkKernelType t (GetPlace ctx))
  | Throw e => Throw e
  end.

Definition KLDivLossOpGrad_GetExpectedKernelType (ctx : ExecutionContext)
  : Result OpKernelType :=
  match IndicateVarDataType ctx (GradVarName "Loss") with
  | Ok t => Ok (MkKernelType t (GetPlace ctx))
  | Throw e => Throw e
  end.

(** ** KLDivLossOpMaker::Make *)

(** The element type an attribute is declared with. *)
Inductive AttrType : Type := BOOLEAN | INT | STRING | INTS | STRINGS.

Record AttrProto : Type := MkAttrProto {
  attr_name : string;
  attr_type : AttrType;
  attr_default : option Attribute
}.

(** The proto being filled by the maker: declared inputs, outputs and
    attributes, in declaration order. *)
Record OpProto : Type := MkProto {
  proto_inputs : list string;
  proto_outputs : list string;
  proto_attrs : list AttrProto
}.

Definition AddInput (name : string) (p : OpProto) : OpProto :=
  MkProto (proto_inputs p ++ [name])%list (proto_outputs p) (proto_attrs p).
Definition AddOutput (name : string) (p : OpProto) : OpProto :=
  MkProto (proto_inputs p) (proto_outputs p ++ [name])%list (proto_attrs p).
(** AddAttr<std::string>(name, comment).SetDefault(v) *)
Definition AddAttr_string_SetDefault (name v : string) (p : OpProto) : OpProto :=
  MkProto (proto_inputs p) (proto_outputs p)
          (proto_attrs p ++ [MkAttrProto name STRING (Some (AttrString v))])%list.

Definition KLDivLossOpMaker_Make (p : OpProto) : OpProto :=
  let p := AddInput "X" p in
  let p := AddInput "Target" p in
  let p := AddOutput "Loss" p in
  AddAttr_string_SetDefault "reduction" "mean" p.

(** ** The gradient-operator maker *)

(** The operator description a maker fills: type, slot bindings (slot name
    to variable names) and attributes. *)
Record OpDesc : Type := MkOp {
  op_type : string;
  op_inputs : gmap string (list string);
  op_outputs : gmap string (list string);
  op_attrs : AttributeMap
}.

Definition SetType (t : string) (op : OpDesc) : OpDesc :=
  MkOp t (op_inputs op) (op_outputs op) (op_attrs op).
Definition SetInput (name : string) (args : list string) (op : OpDesc) : OpDesc :=
  MkOp (op_type op) (<[name := args]> (op_inputs op)) (op_outputs op) (op_attrs op).
Definition SetOutput (name : string) (args : list string) (op : OpDesc) : OpDesc :=
  MkOp (op_type op) (op_inputs op) (<[name := args]> (op_outputs op)) (op_attrs op).
Definition SetAttrMap (attrs : AttributeMap) (op : OpDesc) : OpDesc :=
  MkOp (op_type op) (op_inputs op) (op_outputs op) attrs.

(** The part of framework::SingleGradOpMaker<T> the maker calls: the forward
    operator's input names, the gradient names of its outputs and inputs,
    and its attributes. *)
Class GradOpMakerBase : Type := {
  Input : string -> list string;
  OutputGrad : string -> list string;
  InputGrad : string -> list string;
  Attrs : AttributeMap
}.

Definition KLDivLossOpGradMaker_Apply `{GradOpMakerBase} (op : OpDesc) : OpDesc :=
  let op := SetType "kldiv_loss_grad" op in
  let op := SetInput "X" (Input "X") op in
  let op := SetInput "Target" (Input "Target") op in
  let op := SetInput (GradVarName "Loss") (OutputGrad "Loss") op in
  let op := SetAttrMap Attrs op in
  SetOutput (GradVarName "X") (InputGrad "X") op.

(** DECLARE_NO_NEED_BUFFER_VARS_INFERER(KLDivLossGradNoNeedBufferVarInference,
    "X"): the input slots of the backward operator whose contents are not
    read. *)
Definition KLDivLossGradNoNeedBufferVarInference : gset string := {["X"]}.

(** Modelled from the spec: the base class lives outside this file.  The
    builder is given the forward node and the names of the gradients of its
    outputs; the gradient of an input variable is named by GradVarName, one
    for each variable of the forward slot. *)
Definition grad_maker_of (fwd : OpDesc)
    (outputGradientNames : gmap string (list string)) : GradOpMakerBase := {|
  Input name := default [] (op_inputs fwd !! name);
  OutputGrad name := default [] (outputGradientNames !! name);
  InputGrad name := GradVarName <$> default [] (op_inputs fwd !! name);
  Attrs := op_attrs fwd
|}.

Definition empty_op : OpDesc := MkOp "" ∅ ∅ ∅.

(** Modelled from the spec: a single-grad-op maker creates one fresh
    operator description, lets Apply fill it, and returns it alone. *)
Definition buildGradient (fwd : OpDesc)
    (outputGradientNames : gmap string (list string)) : list OpDesc :=
  [@KLDivLossOpGradMaker_Apply (grad_maker_of fwd outputGradientNames) empty_op].

(** ** Registrations *)

(** The kernel classes of kldiv_loss_op.h, named by template arguments. *)
Inductive CType : Type := c_float | c_double.
Inductive DeviceContext : Type := CPUDeviceContext | CUDADeviceContext.
Inductive Kernel : Type :=
  | KLDivLossKernel (dev : DeviceContext) (T : CType)
  | KLDivLossGradKernel (dev : DeviceContext) (T : CType).

Definition kernel_T (k : Kernel) : CType :=
  match k with KLDivLossKernel _ T | KLDivLossGradKernel _ T => T end.

(** framework::DataTypeTrait: the data-type tag of a C++ element type. *)
Definition ToDataType (T : CType) : VarType :=
  match T with c_float => FP32 | c_double => FP64 end.

(** OperatorWithKernel::AllOpKernels(): for each operator type, its kernels
    by kernel type. *)
Abbreviation KernelMap := (gmap string (list (OpKernelType * Kernel))).

(** REGISTER_OP_CPU_KERNEL(op_type, kernels...): each kernel class is entered
    under the data type of its element type and the CPU place. *)
Definition REGISTER_OP_CPU_KERNEL (op : string) (ks : list Kernel)
    (all : KernelMap) : KernelMap :=
  <[op := (default [] (all !! op) ++
           ((fun k => (MkKernelType (ToDataType (kernel_T k)) CPUPlace, k)) <$> ks))%list]> all.

Definition AllOpKernels : KernelMap :=
  REGISTER_OP_CPU_KERNEL "kldiv_loss_grad"
    [KLDivLossGradKernel CPUDeviceContext c_float;
     KLDivLossGradKernel CPUDeviceContext c_double]
    (REGISTER_OP_CPU_KERNEL "kldiv_loss"
       [KLDivLossKernel CPUDeviceContext c_float;
        KLDivLossKernel CPUDeviceContext c_double] ∅).

(** REGISTER_OPERATOR: what each operator type is registered with. *)
Record OpInfo : Type := MkOpInfo {
  info_infer_shape : Infer unit;
  info_expected_kernel_type : ExecutionContext -> Result OpKernelType;
  info_proto : option OpProto;
  info_grad_op_maker :
    option (OpDesc -> gmap string (list string) -> list OpDesc);
  info_no_need_buffer_vars : gset string
}.

Definition OpInfoMap : gmap string OpInfo :=
  <["kldiv_loss_grad" :=
      MkOpInfo KLDivLossOpGrad_InferShape KLDivLossOpGrad_GetExpectedKernelType
               None None KLDivLossGradNoNeedBufferVarInference]>
  (<["kldiv_loss" :=
      MkOpInfo KLDivLossOp_InferShape KLDivLossOp_GetExpectedKernelType
               (Some (KLDivLossOpMaker_Make (MkProto [] [] [])))
               (Some buildGradient) ∅]> ∅).

Fixpoint find_kernel (key : OpKernelType) (ks : list (OpKernelType * Kernel))
  : option Kernel :=
  match ks with
  | [] => None
  | (k, f) :: rest => if bool_decide (k = key) then Some f else find_kernel key rest
  end.

(** Modelled from the spec: the dispatch routine lives outside this file.
    The kernel key is the operator type with the kernel type the operator
    expects for the execution context; the kernel registered under it is
    looked up, and dispatch fails when there is none, without trying another
    place or data type. *)
Definition dispatch (type : string) (ctx : ExecutionContext) : Result Kernel :=
  match OpInfoMap !! type with
  | None => Throw (NotFound_Kernel type)
  | Some info =>
      match info_expected_kernel_type info ctx with
      | Throw e => Throw e
      | Ok key =>
          match find_kernel key (default [] (AllOpKernels !! type)) with
          | Some f => Ok f
          | None => Throw (NotFound_Kernel type)
          end
      end
  end.

(** ** Notions used to state the properties *)

(** The state after one more call on the context. *)
Definition called (c : CtxCall) (s : InferState) : InferState :=
  MkSt (st_ctx s) (st_calls s ++ [c])%list.

(** The pair of sizes at index [j] is compared and differs. *)
Definition violates (rt : bool) (dx dt : DDim) (j : nat) : Prop :=
  rt || ((0 <? DDim_at dx j)%Z && (0 <? DDim_at dt j)%Z) = true /\
  DDim_at dx j <> DDim_at dt j.

(** The shape checks of InferShape pass: equal ranks, and no pair of sizes
    that is compared differs. *)
Definition shape_checks_pass (rt : bool) (dx dt : DDim) : Prop :=
  DDim_size dx = DDim_size dt /\
  forall j, j < DDim_size dx -> ~ violates rt dx dt j.

(** InferShape fails with an error of the given class. *)
Definition fails_with (f : Failure) (out : Result unit * InferState) : Prop :=
  exists e, fst out = Throw e /\ classify e = f.

(** What InferShape does after the loop over the dimensions: the same text
    as the end of KLDivLossOp_InferShape. *)
Definition finish_infer (dim_x : DDim) : Infer unit :=
  reduction ← Attrs_Get_string "reduction";
  PADDLE_ENFORCE_EQ (reduction_valid reduction) true InvalidArgument_Reduction ;;
  if String.eqb "none" reduction
  then SetOutputDim "Loss" dim_x
  else SetOutputDim "Loss" [1%Z].

(** The calls InferShape makes for its presence checks, then to read the two
    shapes; and the calls of the backward InferShape before it writes. *)
Definition presence_calls : list CtxCall :=
  [CallHasInput "X"; CallHasInput "Target"; CallHasOutput "Loss"].

Definition read_calls : list CtxCall :=
  (presence_calls ++ [CallGetInputDim "X"; CallGetInputDim "Target"])%list.

Definition grad_calls : list CtxCall :=
  [CallHasInput "X"; CallHasInput "Target"; CallHasInput "Loss@GRAD";
   CallGetInputDim "X"; CallHasOutput "X@GRAD"].

(** ** Concrete scenarios *)

(** A kldiv_loss node with shapes for X and Target, a bound Loss and a
    reduction attribute. *)
Definition scenario (dx dt : DDim) (reduction : string) (rt : bool)
  : InferShapeContext :=
  MkCtx (<["Target" := dt]> (<["X" := dx]> ∅)) (<["Loss" := []]> ∅)
        (<["reduction" := AttrString reduction]> ∅) rt.

(** A kldiv_loss_grad node whose inputs are bound, with the given outputs. *)
Definition grad_scenario (dx : DDim) (outs : gmap string DDim)
  : InferShapeContext :=
  MkCtx (<["Loss@GRAD" := [1%Z]]> (<["Target" := dx]> (<["X" := dx]> ∅)))
        outs (<["reduction" := AttrString "mean"]> ∅) false.

(** A forward node binding X, Target and Loss to one variable each. *)
Definition forward_node : OpDesc :=
  MkOp "kldiv_loss" (<["Target" := ["t"]]> (<["X" := ["x"]]> ∅))
       (<["Loss" := ["l"]]> ∅) (<["reduction" := AttrString "batchmean"]> ∅).

(** ** Notions used by the further properties *)

(** The same context, seen at graph construction or at runtime. *)
Definition with_runtime (rt : bool) (c : InferShapeContext)
  : InferShapeContext :=
  MkCtx (ctx_inputs c) (ctx_outputs c) (ctx_attrs c) rt.

(** Everything InferShape checks holds of the context. *)
Definition infer_accepts (c : InferShapeContext) (dx dt : DDim) (r : string)
  : Prop :=
  ctx_inputs c !! "X" = Some dx /\
  ctx_inputs c !! "Target" = Some dt /\
  is_Some (ctx_outputs c !! "Loss") /\
  shape_checks_pass (ctx_is_runtime c) dx dt /\
  ctx_attrs c !! "reduction" = Some (AttrString r) /\
  reduction_valid r = true.

(** The shape InferShape writes for a reduction and a shape of X. *)
Definition out_shape (r : string) (dx : DDim) : DDim :=
  if String.eqb "none" r then dx else [1%Z].

(** Modelled from the spec: the attribute checker lives outside this file.
    The attribute map a node gets from what its creator supplies: each
    declared attribute that is not supplied takes its declared default. *)
Definition fill_defaults (p : OpProto) (attrs : AttributeMap) : AttributeMap :=
  fold_right
    (fun a m =>
       match attr_default a, m !! attr_name a with
       | Some v, None => <[attr_name a := v]> m
       | _, _ => m
       end)
    attrs (proto_attrs p).

(** The kernel registered for an operator type under a kernel type. *)
Definition kernel_for (type : string) (key : OpKernelType) : option Kernel :=
  find_kernel key (default [] (AllOpKernels !! type)).

(** ** The option checks of the top-level CMakeLists.txt

    The part of the build script between the option declarations and the
    first inclusion of a third-party module: the defaults of PY_VERSION and
    CMAKE_BUILD_TYPE, the sanitizer check, and the adjustments and checks of
    WITH_DISTRIBUTE, WITH_NCCL and WITH_BRPC_RDMA.  An option variable is
    held as the truth value [if] gives it; a string variable as [None] when
    [if] takes it for false and as its value otherwise.  Status messages are
    recorded like the other messages; what find_package does is recorded as
    an event only. *)
Module CMake.

Record Vars : Type := MkVars {
  WIN32 : bool;
  PY_VERSION : option string;
  PYBIND11_PYTHON_VERSION : option string;
  CMAKE_BUILD_TYPE : option string;
  REPLACE_ENFORCE_GLOG : bool;
  SANITIZER_TYPE : option string;
  WITH_DISTRIBUTE : bool;
  WITH_NCCL : bool;
  WITH_GPU : bool;
  WITH_BRPC_RDMA : bool;
  WITH_GRPC : bool
}.

Inductive MessageMode : Type := NOTICE | STATUS | WARNING.

Inductive Event : Type :=
  | Message (mode : MessageMode) (text : string)
  | AddDefinitions (flag : string)
  | FindPackage (name : string).

Record Build : Type := MkBuild {
  vars : Vars;
  events : list Event
}.

(** How a run of the script ends: at its last command, at a return(), or at
    a message(FATAL_ERROR ...). *)
Inductive Outcome (A : Type) : Type :=
  | Running (a : A)
  | Returned
  | FatalError (text : string).
Arguments Running {A} a.
Arguments Returned {A}.
Arguments FatalError {A} text.

Definition Script (A : Type) : Type := Build -> Outcome A * Build.

#[export] Instance Script_ret : MRet Script := fun A a b => (Running a, b).
#[export] Instance Script_bind : MBind Script := fun A B f m b =>
  match m b with
  | (Running a, b') => f a b'
  | (Returned, b') => (Returned, b')
  | (FatalError t, b') => (FatalError t, b')
  end.

Definition read {A : Type} (f : Vars -> A) : Script A :=
  fun b => (Running (f (vars b)), b).
Definition update (f : Vars -> Vars) : Script unit :=
  fun b => (Running tt, MkBuild (f (vars b)) (events b)).
Definition emit (e : Event) : Script unit :=
  fun b => (Running tt, MkBuild (vars b) (events b ++ [e])%list).
Definition message (mode : MessageMode) (text : string) : Script unit :=
  emit (Message mode text).
Definition message_FATAL_ERROR (text : string) : Script unit :=
  fun b => (FatalError text, b).
Definition return_ : Script unit := fun b => (Returned, b).
Definition when (cond : bool) (body : Script unit) : Script unit :=
  if cond then body else mret tt.

Definition set_PY_VERSION (x : string) (v : Vars) : Vars :=
  MkVars (WIN32 v) (Some x) (PYBIND11_PYTHON_VERSION v) (CMAKE_BUILD_TYPE v)
    (REPLACE_ENFORCE_GLOG v) (SANITIZER_TYPE v) (WITH_DISTRIBUTE v)
    (WITH_NCCL v) (WITH_GPU v) (WITH_BRPC_RDMA v) (WITH_GRPC v).
Definition set_PYBIND11_PYTHON_VERSION (x : option string) (v : Vars) : Vars :=
  MkVars (WIN32 v) (PY_VERSION v) x (CMAKE_BUILD_TYPE v)
    (REPLACE_ENFORCE_GLOG v) (SANITIZER_TYPE v) (WITH_DISTRIBUTE v)
    (WITH_NCCL v) (WITH_GPU v) (WITH_BRPC_RDMA v) (WITH_GRPC v).
Definition set_CMAKE_BUILD_TYPE (x : string) (v : Vars) : Vars :=
  MkVars (WIN32 v) (PY_VERSION v) (PYBIND11_PYTHON_VERSION v) (Some x)
    (REPLACE_ENFORCE_GLOG v) (SANITIZER_TYPE v) (WITH_DISTRIBUTE v)
    (WITH_NCCL v) (WITH_GPU v) (WITH_BRPC_RDMA v) (WITH_GRPC v).
Definition set_WITH_DISTRIBUTE (x : bool) (v : Vars) : Vars :=
  MkVars (WIN32 v) (PY_VERSION v) (PYBIND11_PYTHON_VERSION v)
    (CMAKE_BUILD_TYPE v) (REPLACE_ENFORCE_GLOG v) (SANITIZER_TYPE v) x
    (WITH_NCCL v) (WITH_GPU v) (WITH_BRPC_RDMA v) (WITH_GRPC v).
Definition set_WITH_NCCL (x : bool) (v : Vars) : Vars :=
  MkVars (WIN32 v) (PY_VERSION v) (PYBIND11_PYTHON_VERSION v)
    (CMAKE_BUILD_TYPE v) (REPLACE_ENFORCE_GLOG v) (SANITIZER_TYPE v)
    (WITH_DISTRIBUTE v) x (WITH_GPU v) (WITH_BRPC_RDMA v) (WITH_GRPC v).

(** "${SANITIZER_TYPE}" MATCHES "^(Address|Leak|Memory|Thread|Undefined)$" *)
Definition sanitizer_matches (s : string) : bool :=
  String.eqb s "Address" || String.eqb s "Leak" || String.eqb s "Memory" ||
  String.eqb s "Thread" || String.eqb s "Undefined".

(** SANITIZER_TYPE AND NOT "${SANITIZER_TYPE}" MATCHES ... *)
Definition sanitizer_rejected (v : Vars) : bool :=
  match SANITIZER_TYPE v with
  | Some s => negb (sanitizer_matches s)
  | None => false
  end.

(** The sections of the script, in its order. *)

(** PY_VERSION *)
Definition python_version : Script unit :=
  py ← read PY_VERSION;
  when (negb (bool_decide (is_Some py))) (update (set_PY_VERSION "2.7")) ;;
  py ← read PY_VERSION;
  update (set_PYBIND11_PYTHON_VERSION py).

(** CMAKE_BUILD_TYPE *)
Definition build_type : Script unit :=
  bt ← read CMAKE_BUILD_TYPE;
  when (negb (bool_decide (is_Some bt)))
    (update (set_CMAKE_BUILD_TYPE "Release")).

(** Replace PADDLE_ENFORCE with glog/CHECK for better debug *)
Definition enforce_glog : Script unit :=
  glog ← read REPLACE_ENFORCE_GLOG;
  when glog (emit (AddDefinitions "-DREPLACE_ENFORCE_GLOG")).

(** the type of sanitizer *)
Definition sanitizer : Script unit :=
  rejected ← read sanitizer_rejected;
  when rejected
    (message NOTICE "Choose the correct type of sanitizer" ;; return_).

(** if(WIN32) *)
Definition windows : Script unit :=
  win32 ← read WIN32;
  when win32
    (distribute ← read WITH_DISTRIBUTE;
     when distribute
       (message WARNING
          "Disable DISTRIBUTE when compiling for Windows. Force WITH_DISTRIBUTE=OFF." ;;
        update (set_WITH_DISTRIBUTE false)) ;;
     nccl ← read WITH_NCCL;
     when nccl
       (message WARNING
          "Disable NCCL when compiling for Windows. Force WITH_NCCL=OFF." ;;
        update (set_WITH_NCCL false))).

(** if (NOT WITH_GPU AND WITH_NCCL), then if(WITH_NCCL) *)
Definition nccl : Script unit :=
  gpu ← read WITH_GPU;
  nccl ← read WITH_NCCL;
  when (negb gpu && nccl)
    (message WARNING
       "Disable NCCL when compiling without GPU. Force WITH_NCCL=OFF." ;;
     update (set_WITH_NCCL false)) ;;
  nccl ← read WITH_NCCL;
  if (nccl : bool)
  then emit (AddDefinitions "-DPADDLE_WITH_NCCL") ;;
       emit (FindPackage "Nccl")
  else gpu ← read WITH_GPU;
       when gpu
         (message WARNING
            "If the environment is multi-card, the WITH_NCCL option needs to be turned on, otherwise only a single card can be used.").

(** if(WITH_BRPC_RDMA) *)
Definition brpc_rdma : Script unit :=
  rdma ← read WITH_BRPC_RDMA;
  when rdma
    (message STATUS "Use brpc with rdma." ;;
     grpc ← read WITH_GRPC;
     when grpc (message_FATAL_ERROR "Can't use grpc with brpc rdma.") ;;
     distribute ← read WITH_DISTRIBUTE;
     when (negb distribute)
       (message_FATAL_ERROR "Can't use brpc rdma in no distribute env.")).

Definition option_checks : Script unit :=
  python_version ;; build_type ;; enforce_glog ;; sanitizer ;;
  windows ;; nccl ;; brpc_rdma.

(** A run of the checks on the variables as the option declarations left
    them. *)
Definition configure (v : Vars) : Outcome unit * Build :=
  option_checks (MkBuild v []).

End CMake.

(** * Properties *)

(** ** Running the monad *)

Lemma bind_run {A B : Type} (m : Infer A) (f : A -> Infer B) (s : InferState) :
  (m ≫= f) s =
  match m s with
  | (Ok a, s') => f a s'
  | (Throw e, s') => (Throw e, s')
  end.
Proof. reflexivity. Qed.

Ltac run_prim :=
  unfold OP_INOUT_CHECK, HasInput, HasOutput, GetInputDim, Attrs_Get_string,
    SetOutputDim, PADDLE_ENFORCE_EQ, lookup_var, called;
  unfold mbind, Infer_bind, record, inspect, throw, mret, Infer_ret; cbn.

Lemma check_input_run (name role n op : string) (s : InferState) :
  OP_INOUT_CHECK (HasInput name) role n op s =
  (if bool_decide (is_Some (ctx_inputs (st_ctx s) !! name))
   then Ok tt else Throw (NotFound_InOut role n op),
   called (CallHasInput name) s).
Proof. run_prim. destruct (bool_decide (is_Some _)); reflexivity. Qed.

Lemma check_output_run (name role n op : string) (s : InferState) :
  OP_INOUT_CHECK (HasOutput name) role n op s =
  (if bool_decide (is_Some (ctx_outputs (st_ctx s) !! name))
   then Ok tt else Throw (NotFound_InOut role n op),
   called (CallHasOutput name) s).
Proof. run_prim. destruct (bool_decide (is_Some _)); reflexivity. Qed.

Lemma GetInputDim_run (name : string) (s : InferState) :
  GetInputDim name s =
  (lookup_var (ctx_inputs (st_ctx s)) name, called (CallGetInputDim name) s).
Proof. run_prim. destruct (ctx_inputs (st_ctx s) !! name); reflexivity. Qed.

Lemma Attrs_Get_string_run (name : string) (s : InferState) :
  Attrs_Get_string name s =
  (Get_string (ctx_attrs (st_ctx s)) name, called (CallAttrsGet name) s).
Proof. run_prim. destruct (Get_string _ _); reflexivity. Qed.

Lemma SetOutputDim_run (name : string) (d : DDim) (s : InferState) :
  SetOutputDim name d s =
  match ctx_outputs (st_ctx s) !! name with
  | Some _ => (Ok tt, MkSt (set_output name d (st_ctx s))
                           (st_calls s ++ [CallSetOutputDim name d])%list)
  | None => (Throw (NotFound_Var name), called (CallSetOutputDim name d) s)
  end.
Proof. run_prim. destruct (ctx_outputs (st_ctx s) !! name); reflexivity. Qed.

(** ** The dimension loop *)

Lemma check_dims_skip (dx dt : DDim) (i n : nat) (s : InferState) :
  ~ violates (ctx_is_runtime (st_ctx s)) dx dt i ->
  check_dims dx dt i (S n) s = check_dims dx dt (S i) n s.
Proof.
  intros Hno. cbn [check_dims]. rewrite !bind_run. cbn [IsRuntime inspect].
  destruct (ctx_is_runtime (st_ctx s) ||
            ((0 <? DDim_at dx i)%Z && (0 <? DDim_at dt i)%Z)) eqn:Hcmp;
    [|reflexivity].
  unfold PADDLE_ENFORCE_EQ. case_bool_decide as Heq; [reflexivity|].
  exfalso. apply Hno. split; assumption.
Qed.

Lemma check_dims_stop (dx dt : DDim) (i n : nat) (s : InferState) :
  violates (ctx_is_runtime (st_ctx s)) dx dt i ->
  check_dims dx dt i (S n) s =
  (Throw (InvalidArgument_Dim i (DDim_at dx i) (DDim_at dt i)), s).
Proof.
  intros [Hcmp Hne]. cbn [check_dims]. rewrite !bind_run. cbn [IsRuntime inspect].
  rewrite Hcmp. unfold PADDLE_ENFORCE_EQ.
  rewrite bool_decide_eq_false_2 by exact Hne. reflexivity.
Qed.

Lemma violates_dec (rt : bool) (dx dt : DDim) (j : nat) :
  {violates rt dx dt j} + {~ violates rt dx dt j}.
Proof.
  unfold violates.
  destruct (rt || ((0 <? DDim_at dx j)%Z && (0 <? DDim_at dt j)%Z)).
  - destruct (decide (DDim_at dx j = DDim_at dt j)) as [Heq|Hne].
    + right. intros [_ H]. contradiction.
    + left. split; [reflexivity | exact Hne].
  - right. intros [H _]. discriminate.
Qed.

Lemma check_dims_spec (dx dt : DDim) (n : nat) : forall (i : nat) (s : InferState),
  (check_dims dx dt i n s = (Ok tt, s) /\
   forall j, i <= j < i + n -> ~ violates (ctx_is_runtime (st_ctx s)) dx dt j)
  \/
  (exists j, i <= j < i + n /\
     violates (ctx_is_runtime (st_ctx s)) dx dt j /\
     (forall k, i <= k < j -> ~ violates (ctx_is_runtime (st_ctx s)) dx dt k) /\
     check_dims dx dt i n s =
       (Throw (InvalidArgument_Dim j (DDim_at dx j) (DDim_at dt j)), s)).
Proof.
  induction n as [|n IH]; intros i s.
  - left. split; [reflexivity | intros j Hj; lia].
  - destruct (violates_dec (ctx_is_runtime (st_ctx s)) dx dt i) as [Hv|Hno].
    + right. exists i. split; [lia|]. split; [exact Hv|].
      split; [intros k Hk; lia | apply check_dims_stop; exact Hv].
    + rewrite (check_dims_skip _ _ _ _ _ Hno).
      destruct (IH (S i) s) as [[Hrun Hall] | (j & Hj & Hv & Hmin & Hrun)].
      * left. split; [exact Hrun|]. intros j Hj.
        destruct (decide (j = i)) as [->|Hji]; [exact Hno | apply Hall; lia].
      * right. exists j. split; [lia|]. split; [exact Hv|].
        split; [|exact Hrun]. intros k Hk.
        destruct (decide (k = i)) as [->|Hki]; [exact Hno | apply Hmin; lia].
Qed.

(** ** The forward shape inference, phase by phase *)

(** The maker declares the slots X, Target, Loss and the one attribute
    reduction, a string whose default "mean" is an accepted value. *)
Lemma KLDivLossOpMaker_Make_declares :
  KLDivLossOpMaker_Make (MkProto [] [] []) =
  MkProto ["X"; "Target"] ["Loss"]
          [MkAttrProto "reduction" STRING (Some (AttrString "mean"))] /\
  reduction_valid "mean" = true.
Proof. split; reflexivity. Qed.

Lemma reduction_valid_iff (r : string) :
  reduction_valid r = true <->
  r = "none" \/ r = "mean" \/ r = "sum" \/ r = "batchmean".
Proof.
  unfold reduction_valid. rewrite !orb_true_iff, !String.eqb_eq.
  split; intros H; repeat destruct H as [H|H]; subst; auto.
Qed.

Lemma infer_no_X (c : InferShapeContext) :
  ctx_inputs c !! "X" = None ->
  run_infer KLDivLossOp_InferShape c =
  (Throw (NotFound_InOut "Input" "X" "KLDivLoss"), MkSt c [CallHasInput "X"]).
Proof.
  intros HX. unfold run_infer, KLDivLossOp_InferShape.
  rewrite bind_run, check_input_run. cbn [st_ctx].
  rewrite HX, bool_decide_eq_false_2 by (intros [? ?]; discriminate).
  reflexivity.
Qed.

Lemma infer_no_Target (c : InferShapeContext) :
  is_Some (ctx_inputs c !! "X") ->
  ctx_inputs c !! "Target" = None ->
  run_infer KLDivLossOp_InferShape c =
  (Throw (NotFound_InOut "Input" "Target" "KLDivLoss"),
   MkSt c [CallHasInput "X"; CallHasInput "Target"]).
Proof.
  intros HX HT. unfold run_infer, KLDivLossOp_InferShape.
  rewrite bind_run, check_input_run. cbn [st_ctx].
  rewrite bool_decide_eq_true_2 by exact HX.
  rewrite bind_run, check_input_run. cbn [st_ctx called].
  rewrite HT, bool_decide_eq_false_2 by (intros [? ?]; discriminate).
  reflexivity.
Qed.

Lemma infer_no_Loss (c : InferShapeContext) :
  is_Some (ctx_inputs c !! "X") ->
  is_Some (ctx_inputs c !! "Target") ->
  ctx_outputs c !! "Loss" = None ->
  run_infer KLDivLossOp_InferShape c =
  (Throw (NotFound_InOut "Output" "Loss" "KLDivLoss"), MkSt c presence_calls).
Proof.
  intros HX HT HL. unfold run_infer, KLDivLossOp_InferShape.
  rewrite bind_run, check_input_run. cbn [st_ctx].
  rewrite bool_decide_eq_true_2 by exact HX.
  rewrite bind_run, check_input_run. cbn [st_ctx called].
  rewrite bool_decide_eq_true_2 by exact HT.
  rewrite bind_run, check_output_run. cbn [st_ctx called].
  rewrite HL, bool_decide_eq_false_2 by (intros [? ?]; discriminate).
  reflexivity.
Qed.

(** With the three slots bound, the shapes are read and the ranks compared. *)
Lemma infer_present (c : InferShapeContext) (dx dt : DDim) :
  ctx_inputs c !! "X" = Some dx ->
  ctx_inputs c !! "Target" = Some dt ->
  is_Some (ctx_outputs c !! "Loss") ->
  run_infer KLDivLossOp_InferShape c =
  if bool_decide (DDim_size dx = DDim_size dt)
  then (check_dims dx dt 0 (DDim_size dx) ;; finish_infer dx) (MkSt c read_calls)
  else (Throw (InvalidArgument_Rank (DDim_size dx) (DDim_size dt)),
        MkSt c read_calls).
Proof.
  intros HX HT HL. unfold run_infer, KLDivLossOp_InferShape.
  rewrite bind_run, check_input_run. cbn [st_ctx].
  rewrite bool_decide_eq_true_2 by (rewrite HX; eauto).
  rewrite bind_run, check_input_run. cbn [st_ctx called].
  rewrite bool_decide_eq_true_2 by (rewrite HT; eauto).
  rewrite bind_run, check_output_run. cbn [st_ctx called].
  rewrite bool_decide_eq_true_2 by exact HL.
  rewrite bind_run, GetInputDim_run. cbn [st_ctx called st_calls].
  unfold lookup_var at 1. rewrite HX.
  rewrite bind_run, GetInputDim_run. cbn [st_ctx called st_calls].
  unfold lookup_var at 1. rewrite HT.
  rewrite bind_run. unfold PADDLE_ENFORCE_EQ at 1.
  case_bool_decide; reflexivity.
Qed.

Lemma finish_infer_run (dim_x : DDim) (s : InferState) :
  finish_infer dim_x s =
  match Get_string (ctx_attrs (st_ctx s)) "reduction" with
  | Throw e => (Throw e, called (CallAttrsGet "reduction") s)
  | Ok r =>
      if reduction_valid r
      then SetOutputDim "Loss" (if String.eqb "none" r then dim_x else [1%Z])
             (called (CallAttrsGet "reduction") s)
      else (Throw InvalidArgument_Reduction, called (CallAttrsGet "reduction") s)
  end.
Proof.
  unfold finish_infer. rewrite bind_run, Attrs_Get_string_run.
  destruct (Get_string _ _) as [r|e]; [|reflexivity].
  rewrite bind_run. unfold PADDLE_ENFORCE_EQ.
  destruct (reduction_valid r).
  - rewrite bool_decide_eq_true_2 by reflexivity.
    unfold mret, Infer_ret. destruct (String.eqb "none" r); reflexivity.
  - rewrite bool_decide_eq_false_2 by discriminate. reflexivity.
Qed.

(** A run of the loop followed by the rest, when no compared pair differs. *)
Lemma infer_agree (c : InferShapeContext) (dx dt : DDim) :
  ctx_inputs c !! "X" = Some dx ->
  ctx_inputs c !! "Target" = Some dt ->
  is_Some (ctx_outputs c !! "Loss") ->
  DDim_size dx = DDim_size dt ->
  (forall j, j < DDim_size dx -> ~ violates (ctx_is_runtime c) dx dt j) ->
  run_infer KLDivLossOp_InferShape c = finish_infer dx (MkSt c read_calls).
Proof.
  intros HX HT HL Hrank Hall.
  rewrite (infer_present c dx dt HX HT HL).
  rewrite bool_decide_eq_true_2 by exact Hrank.
  rewrite bind_run.
  destruct (check_dims_spec dx dt (DDim_size dx) 0 (MkSt c read_calls))
    as [[Hrun _] | (j & Hj & Hv & _)].
  - rewrite Hrun. reflexivity.
  - exfalso. apply (Hall j); [lia | exact Hv].
Qed.

(** A run of the loop that meets a compared pair that differs. *)
Lemma infer_disagree (c : InferShapeContext) (dx dt : DDim) (j : nat) :
  ctx_inputs c !! "X" = Some dx ->
  ctx_inputs c !! "Target" = Some dt ->
  is_Some (ctx_outputs c !! "Loss") ->
  DDim_size dx = DDim_size dt ->
  j < DDim_size dx ->
  violates (ctx_is_runtime c) dx dt j ->
  (forall k, k < j -> ~ violates (ctx_is_runtime c) dx dt k) ->
  run_infer KLDivLossOp_InferShape c =
  (Throw (InvalidArgument_Dim j (DDim_at dx j) (DDim_at dt j)),
   MkSt c read_calls).
Proof.
  intros HX HT HL Hrank Hj Hv Hmin.
  rewrite (infer_present c dx dt HX HT HL).
  rewrite bool_decide_eq_true_2 by exact Hrank.
  rewrite bind_run.
  destruct (check_dims_spec dx dt (DDim_size dx) 0 (MkSt c read_calls))
    as [[_ Hall] | (i & Hi & Hvi & Hmini & Hrun)].
  - exfalso. apply (Hall j); [lia | exact Hv].
  - cbn [st_ctx] in *. rewrite Hrun.
    assert (i = j) as ->; [|reflexivity].
    destruct (Nat.lt_trichotomy i j) as [Hlt | [Heq | Hgt]]; [|exact Heq|].
    + exfalso. apply (Hmin i Hlt). exact Hvi.
    + exfalso. apply (Hmini j); [lia | exact Hv].
Qed.

(** Below a bound, either some compared pair differs or none does. *)
Lemma violation_or_none (rt : bool) (dx dt : DDim) (n : nat) :
  (exists i, i < n /\ violates rt dx dt i) \/
  (forall i, i < n -> ~ violates rt dx dt i).
Proof.
  induction n as [|n IHn]; [right; intros; lia|].
  destruct IHn as [(i & Hi & Hvi) | Hnone].
  - left. exists i. split; [lia | exact Hvi].
  - destruct (violates_dec rt dx dt n) as [Hvn | Hnn].
    + left. exists n. split; [lia | exact Hvn].
    + right. intros i Hi. destruct (decide (i = n)) as [->|?];
        [exact Hnn | apply Hnone; lia].
Qed.

(** The least index at which a compared pair differs, when there is one. *)
Lemma least_violation (rt : bool) (dx dt : DDim) (n : nat) :
  (exists j, j < n /\ violates rt dx dt j) ->
  exists j, j < n /\ violates rt dx dt j /\
            forall k, k < j -> ~ violates rt dx dt k.
Proof.
  induction n as [|n IH]; intros (j & Hj & Hv); [lia|].
  destruct (violation_or_none rt dx dt n) as [Hex | Hnone].
  - destruct (IH Hex) as (i & Hi & Hvi & Hmin).
    exists i. split; [lia|]. split; assumption.
  - assert (j = n) as ->.
    { destruct (decide (j = n)) as [Heq|Hne]; [exact Heq|].
      exfalso. apply (Hnone j); [lia | exact Hv]. }
    exists n. split; [lia|]. split; [exact Hv | exact Hnone].
Qed.

Lemma violates_static (dx dt : DDim) (j : nat) :
  violates false dx dt j <->
  (0 < DDim_at dx j)%Z /\ (0 < DDim_at dt j)%Z /\ DDim_at dx j <> DDim_at dt j.
Proof.
  unfold violates. rewrite orb_false_l, andb_true_iff, !Z.ltb_lt. tauto.
Qed.

Lemma violates_runtime (dx dt : DDim) (j : nat) :
  violates true dx dt j <-> DDim_at dx j <> DDim_at dt j.
Proof. unfold violates. rewrite orb_true_l. tauto. Qed.

(** After the shape checks only the attribute can make InferShape fail. *)
Lemma finish_infer_failure (dx : DDim) (s : InferState) (e : EnforceNotMet)
    (s' : InferState) :
  is_Some (ctx_outputs (st_ctx s) !! "Loss") ->
  finish_infer dx s = (Throw e, s') ->
  classify e = SchemaViolation.
Proof.
  intros [d HL] Hrun. rewrite finish_infer_run in Hrun.
  unfold Get_string in Hrun.
  destruct (ctx_attrs (st_ctx s) !! "reduction") as [[]|];
    try (injection Hrun as <- _; reflexivity).
  destruct (reduction_valid s0); [|injection Hrun as <- _; reflexivity].
  rewrite SetOutputDim_run in Hrun. cbn [st_ctx called] in Hrun.
  rewrite HL in Hrun. discriminate.
Qed.

(** ** Forward shape inference: what InferShape guarantees *)

(** C1: when X and Target pass the shape checks, InferShape succeeds and
    binds to Loss exactly the shape of X if reduction is "none", and the
    one-element shape [1] if reduction is "mean", "sum" or "batchmean";
    nothing else of the context changes. *)
Theorem KLDivLoss_InferShape_output_shape
    (c : InferShapeContext) (dx dt : DDim) (r : string) :
  ctx_inputs c !! "X" = Some dx ->
  ctx_inputs c !! "Target" = Some dt ->
  is_Some (ctx_outputs c !! "Loss") ->
  shape_checks_pass (ctx_is_runtime c) dx dt ->
  ctx_attrs c !! "reduction" = Some (AttrString r) ->
  (r = "none" ->
   fst (run_infer KLDivLossOp_InferShape c) = Ok tt /\
   st_ctx (snd (run_infer KLDivLossOp_InferShape c)) = set_output "Loss" dx c /\
   ctx_outputs (st_ctx (snd (run_infer KLDivLossOp_InferShape c))) !! "Loss"
     = Some dx) /\
  (r = "mean" \/ r = "sum" \/ r = "batchmean" ->
   fst (run_infer KLDivLossOp_InferShape c) = Ok tt /\
   st_ctx (snd (run_infer KLDivLossOp_InferShape c))
     = set_output "Loss" [1%Z] c /\
   ctx_outputs (st_ctx (snd (run_infer KLDivLossOp_InferShape c))) !! "Loss"
     = Some [1%Z]).
Proof.
  intros HX HT HL [Hrank Hall] HR.
  rewrite (infer_agree c dx dt HX HT HL Hrank Hall).
  rewrite finish_infer_run. cbn [st_ctx called]. unfold Get_string. rewrite HR.
  destruct HL as [d0 HL].
  split.
  - intros ->. change (reduction_valid "none") with true.
    change (String.eqb "none" "none") with true. cbn iota.
    rewrite SetOutputDim_run. cbn [st_ctx called]. rewrite HL.
    cbn [fst snd st_ctx].
    repeat split. unfold set_output; cbn. apply lookup_insert_eq.
  - intros Hr.
    assert (Hv : reduction_valid r = true).
    { apply reduction_valid_iff. tauto. }
    assert (Hn : String.eqb "none" r = false).
    { apply String.eqb_neq. destruct Hr as [-> | [-> | ->]]; discriminate. }
    rewrite Hv, Hn. rewrite SetOutputDim_run. cbn [st_ctx called]. rewrite HL.
    cbn [fst snd st_ctx]. repeat split. unfold set_output; cbn.
    apply lookup_insert_eq.
Qed.

(** C4: whenever the ranks of X and Target differ, InferShape fails with a
    ShapeMismatch, in the graph-construction context as in the runtime one
    and whatever the sizes are; with Loss bound the error is the rank error,
    raised before any size is compared, and no shape is written. *)
Theorem KLDivLoss_InferShape_rank_strict
    (c : InferShapeContext) (dx dt : DDim) :
  ctx_inputs c !! "X" = Some dx ->
  ctx_inputs c !! "Target" = Some dt ->
  DDim_size dx <> DDim_size dt ->
  fails_with ShapeMismatch (run_infer KLDivLossOp_InferShape c) /\
  st_ctx (snd (run_infer KLDivLossOp_InferShape c)) = c /\
  (is_Some (ctx_outputs c !! "Loss") ->
   run_infer KLDivLossOp_InferShape c =
   (Throw (InvalidArgument_Rank (DDim_size dx) (DDim_size dt)),
    MkSt c read_calls)).
Proof.
  intros HX HT Hne.
  destruct (ctx_outputs c !! "Loss") as [d|] eqn:HL.
  - rewrite (infer_present c dx dt HX HT) by (rewrite HL; eauto).
    rewrite bool_decide_eq_false_2 by exact Hne.
    split; [eexists; split; reflexivity|]. split; [reflexivity|].
    intros _. reflexivity.
  - rewrite (infer_no_Loss c) by (rewrite ?HX, ?HT; eauto).
    split; [eexists; split; reflexivity|]. split; [reflexivity|].
    intros [? ?]; discriminate.
Qed.

(** C8: when X, Target or Loss is not bound in the context, InferShape fails
    with a ShapeMismatch (the NotFound error of the first missing slot),
    having asked only for the presence of slots: no shape was read and none
    written.  When the three are bound, the three presence checks are
    followed by the read of the shape of X, and no presence error is
    raised. *)
Theorem KLDivLoss_InferShape_presence (c : InferShapeContext) :
  (ctx_inputs c !! "X" = None \/ ctx_inputs c !! "Target" = None \/
   ctx_outputs c !! "Loss" = None ->
   exists role name,
     run_infer KLDivLossOp_InferShape c =
       (Throw (NotFound_InOut role name "KLDivLoss"),
        MkSt c (st_calls (snd (run_infer KLDivLossOp_InferShape c)))) /\
     classify (NotFound_InOut role name "KLDivLoss") = ShapeMismatch /\
     (forall n, CallGetInputDim n ∉
                  st_calls (snd (run_infer KLDivLossOp_InferShape c))) /\
     (forall n d, CallSetOutputDim n d ∉
                  st_calls (snd (run_infer KLDivLossOp_InferShape c)))) /\
  (is_Some (ctx_inputs c !! "X") -> is_Some (ctx_inputs c !! "Target") ->
   is_Some (ctx_outputs c !! "Loss") ->
   (exists rest, st_calls (snd (run_infer KLDivLossOp_InferShape c)) =
                 (presence_calls ++ CallGetInputDim "X" :: rest)%list) /\
   (forall role name op,
      fst (run_infer KLDivLossOp_InferShape c) <>
      Throw (NotFound_InOut role name op))).
Proof.
  split.
  - intros Habs.
    assert (Hcase : ctx_inputs c !! "X" = None \/
              (is_Some (ctx_inputs c !! "X") /\
               ctx_inputs c !! "Target" = None) \/
              (is_Some (ctx_inputs c !! "X") /\
               is_Some (ctx_inputs c !! "Target") /\
               ctx_outputs c !! "Loss" = None)).
    { destruct (ctx_inputs c !! "X"); [|tauto].
      destruct (ctx_inputs c !! "Target"); [|eauto].
      destruct Habs as [?|[?|?]]; try discriminate. eauto 6. }
    destruct Hcase as [HX | [[HX HT] | (HX & HT & HL)]].
    + rewrite (infer_no_X c HX). exists "Input", "X".
      split; [reflexivity|]. split; [reflexivity|]. cbn.
      split; intros; rewrite list_elem_of_In; cbn; intuition discriminate.
    + rewrite (infer_no_Target c HX HT). exists "Input", "Target".
      split; [reflexivity|]. split; [reflexivity|]. cbn.
      split; intros; rewrite list_elem_of_In; cbn; intuition discriminate.
    + rewrite (infer_no_Loss c HX HT HL). exists "Output", "Loss".
      split; [reflexivity|]. split; [reflexivity|]. cbn.
      split; intros; rewrite list_elem_of_In; cbn; intuition discriminate.
  - intros [dx HX] [dt HT] HL.
    rewrite (infer_present c dx dt HX HT HL).
    case_bool_decide as Hrank.
    + rewrite bind_run.
      destruct (check_dims_spec dx dt (DDim_size dx) 0 (MkSt c read_calls))
        as [[Hrun _] | (j & _ & _ & _ & Hrun)]; rewrite Hrun.
      * rewrite finish_infer_run. cbn [st_ctx called st_calls].
        destruct (Get_string (ctx_attrs c) "reduction") as [r|e] eqn:HG.
        -- destruct (reduction_valid r).
           ++ rewrite SetOutputDim_run. cbn [st_ctx st_calls called].
              destruct HL as [d HL]. rewrite HL. cbn.
              split; [eexists; reflexivity | intros; discriminate].
           ++ cbn. split; [eexists; reflexivity | intros; discriminate].
        -- cbn. split; [eexists; reflexivity|].
           intros role name op Heq. unfold Get_string in HG.
           destruct (ctx_attrs c !! "reduction") as [[]|]; congruence.
      * cbn. split; [eexists; reflexivity | intros; discriminate].
    + cbn. split; [eexists; reflexivity | intros; discriminate].
Qed.

Lemma shape_failure_iff (c : InferShapeContext) (dx dt : DDim) :
  ctx_inputs c !! "X" = Some dx ->
  ctx_inputs c !! "Target" = Some dt ->
  is_Some (ctx_outputs c !! "Loss") ->
  DDim_size dx = DDim_size dt ->
  fails_with ShapeMismatch (run_infer KLDivLossOp_InferShape c) <->
  exists i, i < DDim_size dx /\ violates (ctx_is_runtime c) dx dt i.
Proof.
  intros HX HT HL Hrank. split.
  - intros (e & Hrun & Hcls).
    destruct (violation_or_none (ctx_is_runtime c) dx dt (DDim_size dx))
      as [Hex | Hnone]; [exact Hex|].
    exfalso. rewrite (infer_agree c dx dt HX HT HL Hrank Hnone) in Hrun.
    destruct (finish_infer dx (MkSt c read_calls)) as [res s'] eqn:Hfin.
    cbn in Hrun. subst res.
    apply finish_infer_failure in Hfin; [congruence | exact HL].
  - intros Hex. apply least_violation in Hex as (j & Hj & Hv & Hmin).
    rewrite (infer_disagree c dx dt j HX HT HL Hrank Hj Hv Hmin).
    eexists. split; reflexivity.
Qed.

(** C3: for equal-rank shapes of X and Target.  In the graph-construction
    context InferShape fails with a ShapeMismatch exactly when at some index
    both sizes are strictly positive and differ, so a pair with a
    non-positive size is never the cause of a rejection; in the runtime
    context it fails with a ShapeMismatch exactly when at some index the
    sizes differ.  In both, the error reports the first such index with the
    two sizes. *)
Theorem KLDivLoss_InferShape_dimension_check
    (c : InferShapeContext) (dx dt : DDim) :
  ctx_inputs c !! "X" = Some dx ->
  ctx_inputs c !! "Target" = Some dt ->
  is_Some (ctx_outputs c !! "Loss") ->
  DDim_size dx = DDim_size dt ->
  (ctx_is_runtime c = false ->
   (fails_with ShapeMismatch (run_infer KLDivLossOp_InferShape c) <->
    exists i, i < DDim_size dx /\ (0 < DDim_at dx i)%Z /\
              (0 < DDim_at dt i)%Z /\ DDim_at dx i <> DDim_at dt i)) /\
  (ctx_is_runtime c = true ->
   (fails_with ShapeMismatch (run_infer KLDivLossOp_InferShape c) <->
    exists i, i < DDim_size dx /\ DDim_at dx i <> DDim_at dt i)) /\
  (forall i, i < DDim_size dx ->
     violates (ctx_is_runtime c) dx dt i ->
     (forall k, k < i -> ~ violates (ctx_is_runtime c) dx dt k) ->
     run_infer KLDivLossOp_InferShape c =
     (Throw (InvalidArgument_Dim i (DDim_at dx i) (DDim_at dt i)),
      MkSt c read_calls)).
Proof.
  intros HX HT HL Hrank.
  pose proof (shape_failure_iff c dx dt HX HT HL Hrank) as Hiff.
  split; [|split].
  - intros Hrt. rewrite Hiff, Hrt.
    split; intros (i & Hi & Hv); exists i; (split; [exact Hi|]).
    + exact (proj1 (violates_static dx dt i) Hv).
    + exact (proj2 (violates_static dx dt i) Hv).
  - intros Hrt. rewrite Hiff, Hrt.
    split; intros (i & Hi & Hv); exists i; (split; [exact Hi|]).
    + exact (proj1 (violates_runtime dx dt i) Hv).
    + exact (proj2 (violates_runtime dx dt i) Hv).
  - intros i Hi Hv Hmin. apply infer_disagree; assumption.
Qed.

Lemma infer_invalid_reduction_fails (c : InferShapeContext) (r : string) :
  ctx_attrs c !! "reduction" = Some (AttrString r) ->
  reduction_valid r = false ->
  exists e calls, run_infer KLDivLossOp_InferShape c = (Throw e, MkSt c calls).
Proof.
  intros HR Hv.
  destruct (ctx_inputs c !! "X") as [dx|] eqn:HX;
    [|rewrite (infer_no_X c HX); eauto].
  destruct (ctx_inputs c !! "Target") as [dt|] eqn:HT;
    [|rewrite (infer_no_Target c) by (rewrite ?HX; eauto); eauto].
  destruct (ctx_outputs c !! "Loss") as [d|] eqn:HL;
    [|rewrite (infer_no_Loss c) by (rewrite ?HX, ?HT; eauto); eauto].
  rewrite (infer_present c dx dt HX HT) by (rewrite HL; eauto).
  case_bool_decide as Hrank; [|eauto].
  rewrite bind_run.
  destruct (check_dims_spec dx dt (DDim_size dx) 0 (MkSt c read_calls))
    as [[Hrun _] | (j & _ & _ & _ & Hrun)]; rewrite Hrun; [|eauto].
  rewrite finish_infer_run. cbn [st_ctx called]. unfold Get_string.
  rewrite HR, Hv. eauto.
Qed.

(** C5, as it holds: a kldiv_loss node whose reduction attribute is a string
    outside "none", "mean", "sum", "batchmean" never passes InferShape, in
    the graph-construction context as in the runtime one, and no output
    shape is written.  The failure is the attribute error (a
    SchemaViolation) exactly when the presence, rank and dimension checks,
    which come first, pass; otherwise it is the error of the first of those
    checks that fails: the not-found error of the first unbound slot among
    X, Target, Loss, else the rank error, else the dimension error at the
    first index whose compared sizes differ, each a ShapeMismatch. *)
Theorem KLDivLoss_InferShape_invalid_reduction
    (c : InferShapeContext) (r : string) :
  ctx_attrs c !! "reduction" = Some (AttrString r) ->
  r <> "none" -> r <> "mean" -> r <> "sum" -> r <> "batchmean" ->
  (exists e, fst (run_infer KLDivLossOp_InferShape c) = Throw e) /\
  st_ctx (snd (run_infer KLDivLossOp_InferShape c)) = c /\
  (forall dx dt,
     ctx_inputs c !! "X" = Some dx ->
     ctx_inputs c !! "Target" = Some dt ->
     is_Some (ctx_outputs c !! "Loss") ->
     shape_checks_pass (ctx_is_runtime c) dx dt ->
     run_infer KLDivLossOp_InferShape c =
       (Throw InvalidArgument_Reduction,
        MkSt c (read_calls ++ [CallAttrsGet "reduction"])%list) /\
     fails_with SchemaViolation (run_infer KLDivLossOp_InferShape c)) /\
  (ctx_inputs c !! "X" = None ->
   run_infer KLDivLossOp_InferShape c =
     (Throw (NotFound_InOut "Input" "X" "KLDivLoss"),
      MkSt c [CallHasInput "X"])) /\
  (is_Some (ctx_inputs c !! "X") -> ctx_inputs c !! "Target" = None ->
   run_infer KLDivLossOp_InferShape c =
     (Throw (NotFound_InOut "Input" "Target" "KLDivLoss"),
      MkSt c [CallHasInput "X"; CallHasInput "Target"])) /\
  (is_Some (ctx_inputs c !! "X") -> is_Some (ctx_inputs c !! "Target") ->
   ctx_outputs c !! "Loss" = None ->
   run_infer KLDivLossOp_InferShape c =
     (Throw (NotFound_InOut "Output" "Loss" "KLDivLoss"),
      MkSt c presence_calls)) /\
  (forall dx dt,
     ctx_inputs c !! "X" = Some dx ->
     ctx_inputs c !! "Target" = Some dt ->
     is_Some (ctx_outputs c !! "Loss") ->
     DDim_size dx <> DDim_size dt ->
     run_infer KLDivLossOp_InferShape c =
       (Throw (InvalidArgument_Rank (DDim_size dx) (DDim_size dt)),
        MkSt c read_calls)) /\
  (forall dx dt j,
     ctx_inputs c !! "X" = Some dx ->
     ctx_inputs c !! "Target" = Some dt ->
     is_Some (ctx_outputs c !! "Loss") ->
     DDim_size dx = DDim_size dt ->
     j < DDim_size dx ->
     violates (ctx_is_runtime c) dx dt j ->
     (forall k, k < j -> ~ violates (ctx_is_runtime c) dx dt k) ->
     run_infer KLDivLossOp_InferShape c =
       (Throw (InvalidArgument_Dim j (DDim_at dx j) (DDim_at dt j)),
        MkSt c read_calls)) /\
  (fails_with SchemaViolation (run_infer KLDivLossOp_InferShape c) <->
   exists dx dt,
     ctx_inputs c !! "X" = Some dx /\
     ctx_inputs c !! "Target" = Some dt /\
     is_Some (ctx_outputs c !! "Loss") /\
     shape_checks_pass (ctx_is_runtime c) dx dt) /\
  (fails_with ShapeMismatch (run_infer KLDivLossOp_InferShape c) \/
   fails_with SchemaViolation (run_infer KLDivLossOp_InferShape c)).
Proof.
  intros HR H1 H2 H3 H4.
  assert (Hv : reduction_valid r = false).
  { destruct (reduction_valid r) eqn:Hv; [|reflexivity].
    apply reduction_valid_iff in Hv. tauto. }
  assert (Hpass : forall dx dt,
     ctx_inputs c !! "X" = Some dx ->
     ctx_inputs c !! "Target" = Some dt ->
     is_Some (ctx_outputs c !! "Loss") ->
     shape_checks_pass (ctx_is_runtime c) dx dt ->
     run_infer KLDivLossOp_InferShape c =
       (Throw InvalidArgument_Reduction,
        MkSt c (read_calls ++ [CallAttrsGet "reduction"])%list)).
  { intros dx dt HX HT HL [Hrank Hall].
    rewrite (infer_agree c dx dt HX HT HL Hrank Hall).
    rewrite finish_infer_run. cbn [st_ctx called]. unfold Get_string.
    rewrite HR, Hv. reflexivity. }
  assert (Hrankerr : forall dx dt,
     ctx_inputs c !! "X" = Some dx ->
     ctx_inputs c !! "Target" = Some dt ->
     is_Some (ctx_outputs c !! "Loss") ->
     DDim_size dx <> DDim_size dt ->
     run_infer KLDivLossOp_InferShape c =
       (Throw (InvalidArgument_Rank (DDim_size dx) (DDim_size dt)),
        MkSt c read_calls)).
  { intros dx dt HX HT HL Hne. rewrite (infer_present c dx dt HX HT HL).
    rewrite bool_decide_eq_false_2 by exact Hne. reflexivity. }
  destruct (infer_invalid_reduction_fails c r HR Hv) as (e & calls & Hrun).
  split; [rewrite Hrun; eauto|]. split; [rewrite Hrun; reflexivity|].
  split.
  { intros dx dt HX HT HL Hs. rewrite (Hpass dx dt HX HT HL Hs).
    split; [reflexivity|]. eexists. split; reflexivity. }
  split; [apply infer_no_X|]. split; [apply infer_no_Target|].
  split; [apply infer_no_Loss|]. split; [exact Hrankerr|].
  split; [intros dx dt j; apply infer_disagree|].
  clear e calls Hrun.
  destruct (ctx_inputs c !! "X") as [dx|] eqn:HX.
  2: { rewrite (infer_no_X c HX). split.
       - split; [intros (e & [= <-] & Hc); discriminate|].
         intros (dx & dt & HX' & _). discriminate.
       - left. eexists. split; reflexivity. }
  destruct (ctx_inputs c !! "Target") as [dt|] eqn:HT.
  2: { rewrite (infer_no_Target c) by (rewrite ?HX; eauto). split.
       - split; [intros (e & [= <-] & Hc); discriminate|].
         intros (dx' & dt & _ & HT' & _). discriminate.
       - left. eexists. split; reflexivity. }
  destruct (ctx_outputs c !! "Loss") as [d|] eqn:HL.
  2: { rewrite (infer_no_Loss c) by (rewrite ?HX, ?HT; eauto). split.
       - split; [intros (e & [= <-] & Hc); discriminate|].
         intros (dx' & dt' & _ & _ & [? HL'] & _). discriminate.
       - left. eexists. split; reflexivity. }
  assert (HL' : is_Some (ctx_outputs c !! "Loss")) by (rewrite HL; eauto).
  rewrite <- HL in *.
  destruct (decide (DDim_size dx = DDim_size dt)) as [Hrank|Hrank].
  2: { rewrite (Hrankerr dx dt eq_refl eq_refl HL' Hrank). split.
       - split; [intros (e & [= <-] & Hc); discriminate|].
         intros (dx' & dt' & [= <-] & [= <-] & _ & [Hr _]). contradiction.
       - left. eexists. split; reflexivity. }
  destruct (violation_or_none (ctx_is_runtime c) dx dt (DDim_size dx))
    as [Hex | Hnone].
  - pose proof Hex as (j0 & Hj0 & Hv0).
    apply least_violation in Hex as (j & Hj & Hvj & Hmin).
    rewrite (infer_disagree c dx dt j HX HT HL' Hrank Hj Hvj Hmin).
    split.
    + split; [intros (e & [= <-] & Hc); discriminate|].
      intros (dx' & dt' & [= <-] & [= <-] & _ & [_ Hall]).
      exfalso. exact (Hall j0 Hj0 Hv0).
    + left. eexists. split; reflexivity.
  - rewrite (Hpass dx dt eq_refl eq_refl HL' (conj Hrank Hnone)). split.
    + split; [|intros _; eexists; split; reflexivity].
      intros _. exists dx, dt. repeat split; assumption.
    + right. eexists. split; reflexivity.
Qed.

(** ** Backward shape inference *)

(** C9: with X, Target and Loss@GRAD bound, the backward InferShape always
    succeeds; when the output X@GRAD is bound it is given exactly the shape
    of X, and when it is not, the context is left as it was and no output
    shape is written. *)
Theorem KLDivLossGrad_InferShape_optional_output
    (c : InferShapeContext) (dx : DDim) :
  ctx_inputs c !! "X" = Some dx ->
  is_Some (ctx_inputs c !! "Target") ->
  is_Some (ctx_inputs c !! "Loss@GRAD") ->
  (is_Some (ctx_outputs c !! "X@GRAD") ->
   run_infer KLDivLossOpGrad_InferShape c =
   (Ok tt, MkSt (set_output "X@GRAD" dx c)
             (grad_calls ++ [CallSetOutputDim "X@GRAD" dx])%list) /\
   ctx_outputs (set_output "X@GRAD" dx c) !! "X@GRAD" = Some dx) /\
  (ctx_outputs c !! "X@GRAD" = None ->
   run_infer KLDivLossOpGrad_InferShape c = (Ok tt, MkSt c grad_calls) /\
   forall n d, CallSetOutputDim n d ∉ grad_calls).
Proof.
  intros HX HT HG.
  assert (Hpre : run_infer KLDivLossOpGrad_InferShape c =
    (if bool_decide (is_Some (ctx_outputs c !! "X@GRAD"))
     then SetOutputDim "X@GRAD" dx else mret tt) (MkSt c grad_calls)).
  { unfold run_infer, KLDivLossOpGrad_InferShape.
    change (GradVarName "Loss") with "Loss@GRAD".
    change (GradVarName "X") with "X@GRAD".
    rewrite bind_run, check_input_run. cbn [st_ctx].
    rewrite bool_decide_eq_true_2 by (rewrite HX; eauto).
    rewrite bind_run, check_input_run. cbn [st_ctx called].
    rewrite bool_decide_eq_true_2 by exact HT.
    rewrite bind_run, check_input_run. cbn [st_ctx called].
    rewrite bool_decide_eq_true_2 by exact HG.
    rewrite bind_run, GetInputDim_run. cbn [st_ctx called st_calls].
    unfold lookup_var at 1. rewrite HX.
    rewrite bind_run. unfold HasOutput. rewrite bind_run.
    reflexivity. }
  rewrite Hpre. split.
  - intros HO. rewrite bool_decide_eq_true_2 by exact HO.
    rewrite SetOutputDim_run. cbn [st_ctx st_calls]. destruct HO as [d HO].
    rewrite HO. split; [reflexivity|]. unfold set_output; cbn.
    apply lookup_insert_eq.
  - intros HO. rewrite HO.
    rewrite bool_decide_eq_false_2 by (intros [? ?]; discriminate).
    split; [reflexivity|]. intros n d. rewrite list_elem_of_In. cbn.
    intuition discriminate.
Qed.

(** ** The gradient maker *)

Lemma Apply_fields `{GradOpMakerBase} (op : OpDesc) :
  KLDivLossOpGradMaker_Apply op =
  MkOp "kldiv_loss_grad"
       (<["Loss@GRAD" := OutputGrad "Loss"]>
          (<["Target" := Input "Target"]> (<["X" := Input "X"]> (op_inputs op))))
       (<["X@GRAD" := InputGrad "X"]> (op_outputs op))
       Attrs.
Proof. reflexivity. Qed.

(** C2, as it holds: the gradient of a forward node with inputs X, Target,
    built with the gradient of Loss named Loss@GRAD, is one node of type
    kldiv_loss_grad; its inputs are exactly X and Target bound as in the
    forward node and Loss@GRAD bound to the given name; its only output is
    X@GRAD, bound to the gradient names of the variables of X, so Target
    gets no gradient; the slot registered as no-need-buffer for
    kldiv_loss_grad is X, and Target is not. *)
Theorem KLDivLoss_gradient_wiring (fwd : OpDesc) (xs ts : list string) :
  op_inputs fwd !! "X" = Some xs ->
  op_inputs fwd !! "Target" = Some ts ->
  exists op,
    buildGradient fwd {["Loss" := ["Loss@GRAD"]]} = [op] /\
    op_type op = "kldiv_loss_grad" /\
    op_inputs op =
      <["Loss@GRAD" := ["Loss@GRAD"]]>
        (<["Target" := ts]> (<["X" := xs]> ∅)) /\
    op_outputs op = {["X@GRAD" := GradVarName <$> xs]} /\
    op_outputs op !! "Target@GRAD" = None /\
    (info_no_need_buffer_vars <$> OpInfoMap !! "kldiv_loss_grad")
      = Some {["X"]} /\
    "Target" ∉ KLDivLossGradNoNeedBufferVarInference.
Proof.
  intros HX HT. eexists. split; [reflexivity|].
  rewrite Apply_fields. cbn [op_type op_inputs op_outputs empty_op].
  cbn [Input OutputGrad InputGrad grad_maker_of]. rewrite HX, HT.
  rewrite lookup_singleton_eq. cbn [default].
  split; [reflexivity|]. split; [reflexivity|]. split; [reflexivity|].
  split; [rewrite lookup_insert_ne by discriminate; apply lookup_empty|].
  split.
  - unfold OpInfoMap. rewrite lookup_insert_eq. reflexivity.
  - unfold KLDivLossGradNoNeedBufferVarInference.
    rewrite elem_of_singleton. discriminate.
Qed.

(** C7: the attribute map of the backward node is the attribute map the
    maker is given, whatever the node being filled held before; for the
    gradient built from a forward node it is the forward node's attribute
    map itself. *)
Theorem KLDivLoss_gradient_attrs (fwd : OpDesc)
    (outputGradientNames : gmap string (list string)) :
  (forall (M : GradOpMakerBase) (op : OpDesc),
     op_attrs (@KLDivLossOpGradMaker_Apply M op) = @Attrs M) /\
  Forall (fun op => op_attrs op = op_attrs fwd)
         (buildGradient fwd outputGradientNames).
Proof.
  split; [intros M op; reflexivity|].
  unfold buildGradient. constructor; [reflexivity | constructor].
Qed.

(** ** Kernel selection *)

Lemma kldiv_loss_info :
  OpInfoMap !! "kldiv_loss" =
  Some (MkOpInfo KLDivLossOp_InferShape KLDivLossOp_GetExpectedKernelType
          (Some (KLDivLossOpMaker_Make (MkProto [] [] [])))
          (Some buildGradient) ∅).
Proof.
  unfold OpInfoMap. rewrite lookup_insert_ne by discriminate.
  apply lookup_insert_eq.
Qed.

Lemma kldiv_loss_kernels :
  AllOpKernels !! "kldiv_loss" =
  Some [(MkKernelType FP32 CPUPlace, KLDivLossKernel CPUDeviceContext c_float);
        (MkKernelType FP64 CPUPlace, KLDivLossKernel CPUDeviceContext c_double)].
Proof.
  unfold AllOpKernels, REGISTER_OP_CPU_KERNEL.
  rewrite lookup_insert_ne by discriminate.
  rewrite lookup_insert_eq, lookup_empty. reflexivity.
Qed.

Lemma dispatch_kldiv_loss (ctx : ExecutionContext) (t : VarType) :
  exec_dtypes ctx !! "X" = Some t ->
  dispatch "kldiv_loss" ctx =
  match find_kernel (MkKernelType t (exec_place ctx))
          [(MkKernelType FP32 CPUPlace, KLDivLossKernel CPUDeviceContext c_float);
           (MkKernelType FP64 CPUPlace, KLDivLossKernel CPUDeviceContext c_double)]
  with
  | Some f => Ok f
  | None => Throw (NotFound_Kernel "kldiv_loss")
  end.
Proof.
  intros HX. unfold dispatch. rewrite kldiv_loss_info, kldiv_loss_kernels.
  cbn [info_expected_kernel_type default].
  unfold KLDivLossOp_GetExpectedKernelType, IndicateVarDataType, GetPlace.
  rewrite HX. reflexivity.
Qed.

(** C6: the kernel type of a kldiv_loss node is the data type of X with the
    place of the execution context, and dispatch looks it up among the
    kernels registered for kldiv_loss, which are the CPU kernels for float32
    and float64: CPU with float32 finds the float kernel; float16 fails with
    NoKernelFound; dispatch succeeds only for CPU with float32 or float64
    and fails with NoKernelFound for every other place or data type. *)
Theorem kldiv_loss_kernel_dispatch (ctx : ExecutionContext) (t : VarType) :
  exec_dtypes ctx !! "X" = Some t ->
  KLDivLossOp_GetExpectedKernelType ctx
    = Ok (MkKernelType t (exec_place ctx)) /\
  (exec_place ctx = CPUPlace -> t = FP32 ->
   dispatch "kldiv_loss" ctx = Ok (KLDivLossKernel CPUDeviceContext c_float)) /\
  (t = FP16 ->
   dispatch "kldiv_loss" ctx = Throw (NotFound_Kernel "kldiv_loss") /\
   classify (NotFound_Kernel "kldiv_loss") = NoKernelFound) /\
  ((exists k, dispatch "kldiv_loss" ctx = Ok k) <->
   exec_place ctx = CPUPlace /\ (t = FP32 \/ t = FP64)) /\
  (~ (exec_place ctx = CPUPlace /\ (t = FP32 \/ t = FP64)) ->
   dispatch "kldiv_loss" ctx = Throw (NotFound_Kernel "kldiv_loss")).
Proof.
  intros HX. rewrite (dispatch_kldiv_loss ctx t HX).
  split.
  { unfold KLDivLossOp_GetExpectedKernelType, IndicateVarDataType, GetPlace.
    rewrite HX. reflexivity. }
  split; [intros -> ->; reflexivity|].
  split.
  { intros ->. split; [|reflexivity].
    cbn [find_kernel]. rewrite !bool_decide_eq_false_2 by (intros [=]).
    reflexivity. }
  destruct ctx as [p m]; cbn [exec_place] in *.
  split.
  - split.
    + intros [k Hk]. destruct p; destruct t; cbn in Hk; try discriminate; auto.
    + intros [-> [-> | ->]]; cbn; eauto.
  - intros Hno. destruct p; destruct t; cbn; try reflexivity;
      exfalso; apply Hno; auto.
Qed.

(** C10: the kernel type of a kldiv_loss_grad node is the data type of
    Loss@GRAD with the place of the execution context; two execution
    contexts with the same place and the same data type for Loss@GRAD give
    the same kernel type, whatever the data types of X and Target are. *)
Theorem kldiv_loss_grad_kernel_type (ctx ctx' : ExecutionContext) :
  exec_place ctx = exec_place ctx' ->
  exec_dtypes ctx !! "Loss@GRAD" = exec_dtypes ctx' !! "Loss@GRAD" ->
  KLDivLossOpGrad_GetExpectedKernelType ctx
    = KLDivLossOpGrad_GetExpectedKernelType ctx' /\
  (forall t, exec_dtypes ctx !! "Loss@GRAD" = Some t ->
     KLDivLossOpGrad_GetExpectedKernelType ctx
       = Ok (MkKernelType t (exec_place ctx))).
Proof.
  intros Hp Hd.
  unfold KLDivLossOpGrad_GetExpectedKernelType, IndicateVarDataType, GetPlace.
  change (GradVarName "Loss") with "Loss@GRAD".
  rewrite <- Hd, <- Hp. split; [reflexivity|].
  intros t Ht. rewrite Ht. reflexivity.
Qed.

(** ** The scenarios of the specification *)

(** X [4,10], Target [4,10]: reduction "none" gives Loss [4,10], "mean"
    gives Loss [1]. *)
Lemma KLDivLoss_InferShape_output_shape_witness :
  ctx_outputs (st_ctx (snd (run_infer KLDivLossOp_InferShape
     (scenario [4; 10]%Z [4; 10]%Z "none" false)))) !! "Loss"
    = Some [4; 10]%Z /\
  ctx_outputs (st_ctx (snd (run_infer KLDivLossOp_InferShape
     (scenario [4; 10]%Z [4; 10]%Z "mean" false)))) !! "Loss"
    = Some [1%Z].
Proof.
  assert (Hs : shape_checks_pass false [4; 10]%Z [4; 10]%Z).
  { split; [reflexivity|]. intros j Hj [_ Hne]. apply Hne. reflexivity. }
  split.
  - apply (KLDivLoss_InferShape_output_shape
             (scenario [4; 10]%Z [4; 10]%Z "none" false)
             [4; 10]%Z [4; 10]%Z "none"); try reflexivity.
    + exists []. reflexivity.
    + exact Hs.
  - apply (KLDivLoss_InferShape_output_shape
             (scenario [4; 10]%Z [4; 10]%Z "mean" false)
             [4; 10]%Z [4; 10]%Z "mean"); try reflexivity.
    + exists []. reflexivity.
    + exact Hs.
    + left. reflexivity.
Defined.

(** X [4,10] against Target [4,5] at construction: the error reports index 1
    with 10 and 5. *)
Lemma KLDivLoss_InferShape_dimension_check_witness :
  run_infer KLDivLossOp_InferShape (scenario [4; 10]%Z [4; 5]%Z "mean" false)
  = (Throw (InvalidArgument_Dim 1 10 5),
     MkSt (scenario [4; 10]%Z [4; 5]%Z "mean" false) read_calls).
Proof.
  apply (KLDivLoss_InferShape_dimension_check
           (scenario [4; 10]%Z [4; 5]%Z "mean" false) [4; 10]%Z [4; 5]%Z).
  - reflexivity.
  - reflexivity.
  - exists []. reflexivity.
  - reflexivity.
  - cbn. lia.
  - split; [reflexivity | discriminate].
  - intros k Hk [_ Hne]. assert (k = 0) as -> by lia. apply Hne. reflexivity.
Defined.

(** A dynamic size is not compared at construction, and is at runtime. *)
Example dynamic_size_accepted_at_construction :
  fst (run_infer KLDivLossOp_InferShape
         (scenario [-1; 10]%Z [4; 10]%Z "mean" false)) = Ok tt.
Proof. reflexivity. Qed.

Example dynamic_size_checked_at_runtime :
  fst (run_infer KLDivLossOp_InferShape
         (scenario [-1; 10]%Z [4; 10]%Z "mean" true))
  = Throw (InvalidArgument_Dim 0 (-1) 4).
Proof. reflexivity. Qed.

(** X [4,-1] against Target [4]: the rank error, although a size of X is
    dynamic and the context is the graph-construction one. *)
Lemma KLDivLoss_InferShape_rank_strict_witness :
  fails_with ShapeMismatch
    (run_infer KLDivLossOp_InferShape (scenario [4; -1]%Z [4]%Z "mean" false)).
Proof.
  apply (KLDivLoss_InferShape_rank_strict
           (scenario [4; -1]%Z [4]%Z "mean" false) [4; -1]%Z [4]%Z).
  - reflexivity.
  - reflexivity.
  - discriminate.
Defined.

(** X [4,10], Target [4,10], reduction "invalid_value": the attribute error,
    after the shapes were read and before any output shape is written. *)
Lemma KLDivLoss_InferShape_invalid_reduction_witness :
  run_infer KLDivLossOp_InferShape
    (scenario [4; 10]%Z [4; 10]%Z "invalid_value" false)
  = (Throw InvalidArgument_Reduction,
     MkSt (scenario [4; 10]%Z [4; 10]%Z "invalid_value" false)
          (read_calls ++ [CallAttrsGet "reduction"])%list) /\
  run_infer KLDivLossOp_InferShape
    (scenario [4; 10]%Z [4]%Z "invalid_value" false)
  = (Throw (InvalidArgument_Rank 2 1),
     MkSt (scenario [4; 10]%Z [4]%Z "invalid_value" false) read_calls).
Proof.
  split.
  - destruct (KLDivLoss_InferShape_invalid_reduction
                (scenario [4; 10]%Z [4; 10]%Z "invalid_value" false)
                "invalid_value") as (_ & _ & Hpass & _);
      [reflexivity | discriminate | discriminate | discriminate
      | discriminate |].
    apply (Hpass [4; 10]%Z [4; 10]%Z); try reflexivity.
    + exists []. reflexivity.
    + split; [reflexivity|]. intros j Hj [_ Hne]. apply Hne. reflexivity.
  - destruct (KLDivLoss_InferShape_invalid_reduction
                (scenario [4; 10]%Z [4]%Z "invalid_value" false)
                "invalid_value") as (_ & _ & _ & _ & _ & _ & Hrank & _);
      [reflexivity | discriminate | discriminate | discriminate
      | discriminate |].
    apply (Hrank [4; 10]%Z [4]%Z); try reflexivity.
    + exists []. reflexivity.
    + discriminate.
Defined.

(** C5 as stated fails: with ranks that differ, an invalid reduction is not
    reported; the rank error, a ShapeMismatch, is raised first. *)
Lemma invalid_reduction_behind_rank_error :
  ctx_attrs (scenario [4; 10]%Z [4]%Z "invalid_value" false) !! "reduction"
    = Some (AttrString "invalid_value") /\
  reduction_valid "invalid_value" = false /\
  fst (run_infer KLDivLossOp_InferShape
         (scenario [4; 10]%Z [4]%Z "invalid_value" false))
    = Throw (InvalidArgument_Rank 2 1) /\
  ~ fails_with SchemaViolation
      (run_infer KLDivLossOp_InferShape
         (scenario [4; 10]%Z [4]%Z "invalid_value" false)).
Proof.
  split; [reflexivity|]. split; [reflexivity|]. split; [reflexivity|].
  intros (e & Hrun & Hcls).
  change (Throw (InvalidArgument_Rank 2 1) = @Throw unit e) in Hrun.
  injection Hrun as <-. discriminate.
Qed.

(** Target unbound: InferShape stops at its presence check. *)
Lemma KLDivLoss_InferShape_presence_witness :
  exists role name,
    fst (run_infer KLDivLossOp_InferShape
           (MkCtx (<["X" := [4; 10]%Z]> ∅) (<["Loss" := []]> ∅) ∅ false))
    = Throw (NotFound_InOut role name "KLDivLoss").
Proof.
  destruct (KLDivLoss_InferShape_presence
              (MkCtx (<["X" := [4; 10]%Z]> ∅) (<["Loss" := []]> ∅) ∅ false))
    as [Habs _].
  destruct Habs as (role & name & Hrun & _).
  - right. left. reflexivity.
  - exists role, name. rewrite Hrun. reflexivity.
Defined.

(** The backward InferShape with X@GRAD unbound, and with X@GRAD bound. *)
Lemma KLDivLossGrad_InferShape_optional_output_witness :
  run_infer KLDivLossOpGrad_InferShape (grad_scenario [4; 10]%Z ∅)
  = (Ok tt, MkSt (grad_scenario [4; 10]%Z ∅) grad_calls) /\
  fst (run_infer KLDivLossOpGrad_InferShape
         (grad_scenario [4; 10]%Z (<["X@GRAD" := []]> ∅))) = Ok tt.
Proof.
  split.
  - apply (KLDivLossGrad_InferShape_optional_output
             (grad_scenario [4; 10]%Z ∅) [4; 10]%Z).
    + reflexivity.
    + exists [4; 10]%Z. reflexivity.
    + exists [1%Z]. reflexivity.
    + reflexivity.
  - destruct (KLDivLossGrad_InferShape_optional_output
             (grad_scenario [4; 10]%Z (<["X@GRAD" := []]> ∅)) [4; 10]%Z)
      as [Hset _].
    + reflexivity.
    + exists [4; 10]%Z. reflexivity.
    + exists [1%Z]. reflexivity.
    + destruct Hset as [Hrun _]; [exists []; reflexivity|].
      rewrite Hrun. reflexivity.
Defined.

(** The gradient of a forward node over the variables x, t and l. *)
Lemma KLDivLoss_gradient_wiring_witness :
  exists op,
    buildGradient forward_node {["Loss" := ["Loss@GRAD"]]} = [op] /\
    op_type op = "kldiv_loss_grad" /\
    op_inputs op =
      <["Loss@GRAD" := ["Loss@GRAD"]]>
        (<["Target" := ["t"]]> (<["X" := ["x"]]> ∅)) /\
    op_outputs op = {["X@GRAD" := ["x@GRAD"]]}.
Proof.
  destruct (KLDivLoss_gradient_wiring forward_node ["x"] ["t"])
    as (op & H1 & H2 & H3 & H4 & _).
  - reflexivity.
  - reflexivity.
  - exists op. repeat split; assumption.
Defined.

(** C2 as stated fails in its last part: the slot declared no-need-buffer is
    X, not Target. *)
Lemma no_need_buffer_is_X_not_Target :
  "X" ∈ KLDivLossGradNoNeedBufferVarInference /\
  ~ "Target" ∈ KLDivLossGradNoNeedBufferVarInference.
Proof.
  unfold KLDivLossGradNoNeedBufferVarInference.
  rewrite !elem_of_singleton. split; [reflexivity | discriminate].
Qed.

(** CPU with float32 finds the float kernel; CPU with float16 finds none. *)
Lemma kldiv_loss_kernel_dispatch_witness :
  dispatch "kldiv_loss" (MkExec CPUPlace (<["X" := FP32]> ∅))
    = Ok (KLDivLossKernel CPUDeviceContext c_float) /\
  dispatch "kldiv_loss" (MkExec CPUPlace (<["X" := FP16]> ∅))
    = Throw (NotFound_Kernel "kldiv_loss").
Proof.
  split.
  - destruct (kldiv_loss_kernel_dispatch
                (MkExec CPUPlace (<["X" := FP32]> ∅)) FP32)
      as (_ & Hfound & _); [reflexivity|].
    exact (Hfound eq_refl eq_refl).
  - destruct (kldiv_loss_kernel_dispatch
                (MkExec CPUPlace (<["X" := FP16]> ∅)) FP16)
      as (_ & _ & Hhalf & _); [reflexivity|].
    exact (proj1 (Hhalf eq_refl)).
Defined.

(** Two executions that differ only in the data type of X. *)
Lemma kldiv_loss_grad_kernel_type_witness :
  KLDivLossOpGrad_GetExpectedKernelType
    (MkExec CPUPlace (<["Loss@GRAD" := FP64]> (<["X" := FP32]> ∅)))
  = KLDivLossOpGrad_GetExpectedKernelType
    (MkExec CPUPlace (<["Loss@GRAD" := FP64]> (<["X" := FP16]> ∅))).
Proof.
  apply (kldiv_loss_grad_kernel_type
           (MkExec CPUPlace (<["Loss@GRAD" := FP64]> (<["X" := FP32]> ∅)))
           (MkExec CPUPlace (<["Loss@GRAD" := FP64]> (<["X" := FP16]> ∅))));
    reflexivity.
Defined.

(** * Further properties of the operator file *)

(** ** The outcome of the forward shape inference *)

Lemma infer_accepts_run (c : InferShapeContext) (dx dt : DDim) (r : string) :
  infer_accepts c dx dt r ->
  run_infer KLDivLossOp_InferShape c =
  (Ok tt,
   MkSt (set_output "Loss" (out_shape r dx) c)
        (read_calls ++ [CallAttrsGet "reduction";
                        CallSetOutputDim "Loss" (out_shape r dx)])%list).
Proof.
  intros (HX & HT & HL & [Hrank Hall] & HR & Hv).
  rewrite (infer_agree c dx dt HX HT HL Hrank Hall).
  rewrite finish_infer_run. cbn [st_ctx called]. unfold Get_string.
  rewrite HR, Hv. rewrite SetOutputDim_run. cbn [st_ctx called st_calls].
  destruct HL as [d HL]. rewrite HL. unfold out_shape.
  rewrite <- app_assoc. reflexivity.
Qed.

Ltac thrown :=
  eexists _, _; split; [reflexivity | intros ? ?; discriminate].

(** Either every check holds and InferShape returns, or one fails and
    InferShape throws with the context as it was; the error is never that
    of a shape read or written on an unbound slot. *)
Lemma infer_cases (c : InferShapeContext) :
  (exists dx dt r, infer_accepts c dx dt r) \/
  ((~ exists dx dt r, infer_accepts c dx dt r) /\
   exists e calls,
     run_infer KLDivLossOp_InferShape c = (Throw e, MkSt c calls) /\
     forall n, e <> NotFound_Var n).
Proof.
  destruct (ctx_inputs c !! "X") as [dx|] eqn:HX.
  2: { right. split; [|rewrite (infer_no_X c HX); thrown].
       intros (dx & dt & r & H & _). congruence. }
  destruct (ctx_inputs c !! "Target") as [dt|] eqn:HT.
  2: { right. split;
         [|rewrite (infer_no_Target c) by (rewrite ?HX; eauto); thrown].
       intros (dx' & dt & r & _ & H & _). congruence. }
  destruct (ctx_outputs c !! "Loss") as [d|] eqn:HL.
  2: { right. split;
         [|rewrite (infer_no_Loss c) by (rewrite ?HX, ?HT; eauto); thrown].
       intros (dx' & dt' & r & _ & _ & [? H] & _). congruence. }
  assert (HL' : is_Some (ctx_outputs c !! "Loss")) by (rewrite HL; eauto).
  destruct (decide (DDim_size dx = DDim_size dt)) as [Hrank|Hrank].
  2: { right. split.
       - intros (dx' & dt' & r & H1 & H2 & _ & [H3 _] & _). congruence.
       - rewrite (infer_present c dx dt HX HT HL').
         rewrite bool_decide_eq_false_2 by exact Hrank. thrown. }
  destruct (violation_or_none (ctx_is_runtime c) dx dt (DDim_size dx))
    as [Hex | Hnone].
  { right. split.
    - intros (dx' & dt' & r & H1 & H2 & _ & [_ H3] & _).
      destruct Hex as (j & Hj & Hv).
      assert (dx' = dx) as -> by congruence.
      assert (dt' = dt) as -> by congruence.
      exact (H3 j Hj Hv).
    - apply least_violation in Hex as (j & Hj & Hv & Hmin).
      rewrite (infer_disagree c dx dt j HX HT HL' Hrank Hj Hv Hmin). thrown. }
  destruct (ctx_attrs c !! "reduction") as [a|] eqn:HR.
  2: { right. split.
       - intros (dx' & dt' & r & _ & _ & _ & _ & H & _). congruence.
       - rewrite (infer_agree c dx dt HX HT HL' Hrank Hnone).
         rewrite finish_infer_run. cbn [st_ctx called]. unfold Get_string.
         rewrite HR. thrown. }
  assert (Hns : (forall r, a <> AttrString r) ->
                (~ exists dx dt r, infer_accepts c dx dt r) /\
                exists e calls,
                  run_infer KLDivLossOp_InferShape c = (Throw e, MkSt c calls)
                  /\ forall n, e <> NotFound_Var n).
  { intros Ha. split.
    - intros (dx' & dt' & r & _ & _ & _ & _ & H & _).
      apply (Ha r). congruence.
    - rewrite (infer_agree c dx dt HX HT HL' Hrank Hnone).
      rewrite finish_infer_run. cbn [st_ctx called]. unfold Get_string.
      rewrite HR. destruct a; try thrown. exfalso. eapply Ha. reflexivity. }
  destruct a as [b|i|r|l|l]; try (right; apply Hns; intros; discriminate).
  destruct (reduction_valid r) eqn:Hv.
  - left. exists dx, dt, r. repeat split; assumption.
  - right. split.
    + intros (dx' & dt' & r' & _ & _ & _ & _ & H & Hv').
      assert (r' = r) as -> by congruence. congruence.
    + rewrite (infer_agree c dx dt HX HT HL' Hrank Hnone).
      rewrite finish_infer_run. cbn [st_ctx called]. unfold Get_string.
      rewrite HR, Hv. thrown.
Qed.

(** X1: InferShape returns normally exactly when X, Target and Loss are
    bound, the ranks are equal, no compared pair of sizes differs, and the
    attribute reduction is one of the four accepted strings. *)
Theorem KLDivLoss_InferShape_succeeds_iff (c : InferShapeContext) :
  fst (run_infer KLDivLossOp_InferShape c) = Ok tt <->
  exists dx dt r,
    ctx_inputs c !! "X" = Some dx /\
    ctx_inputs c !! "Target" = Some dt /\
    is_Some (ctx_outputs c !! "Loss") /\
    shape_checks_pass (ctx_is_runtime c) dx dt /\
    ctx_attrs c !! "reduction" = Some (AttrString r) /\
    (r = "none" \/ r = "mean" \/ r = "sum" \/ r = "batchmean").
Proof.
  split.
  - intros Hok. destruct (infer_cases c) as [(dx & dt & r & Hacc) | [_ Hthrow]].
    + exists dx, dt, r. destruct Hacc as (HX & HT & HL & Hs & HR & Hv).
      apply reduction_valid_iff in Hv.
      exact (conj HX (conj HT (conj HL (conj Hs (conj HR Hv))))).
    + destruct Hthrow as (e & calls & Hrun & _). rewrite Hrun in Hok.
      discriminate.
  - intros (dx & dt & r & HX & HT & HL & Hs & HR & Hv).
    apply reduction_valid_iff in Hv.
    rewrite (infer_accepts_run c dx dt r); [reflexivity|].
    exact (conj HX (conj HT (conj HL (conj Hs (conj HR Hv))))).
Qed.

(** The calls of a run of InferShape: a run that throws stops after its
    presence checks, after reading the two shapes, or after reading the
    attribute; a run that returns ends with its one write, on Loss. *)
Lemma infer_trace (c : InferShapeContext) :
  (exists e calls,
     run_infer KLDivLossOp_InferShape c = (Throw e, MkSt c calls) /\
     (calls = [CallHasInput "X"] \/
      calls = [CallHasInput "X"; CallHasInput "Target"] \/
      calls = presence_calls \/ calls = read_calls \/
      calls = (read_calls ++ [CallAttrsGet "reduction"])%list)) \/
  (exists dx dt r,
     infer_accepts c dx dt r /\
     run_infer KLDivLossOp_InferShape c =
       (Ok tt,
        MkSt (set_output "Loss" (out_shape r dx) c)
             (read_calls ++ [CallAttrsGet "reduction";
                             CallSetOutputDim "Loss" (out_shape r dx)])%list)).
Proof.
  destruct (ctx_inputs c !! "X") as [dx|] eqn:HX.
  2: { left. rewrite (infer_no_X c HX). eexists _, _. split; [reflexivity|].
       auto. }
  destruct (ctx_inputs c !! "Target") as [dt|] eqn:HT.
  2: { left. rewrite (infer_no_Target c) by (rewrite ?HX; eauto).
       eexists _, _. split; [reflexivity|]. auto. }
  destruct (ctx_outputs c !! "Loss") as [d|] eqn:HL.
  2: { left. rewrite (infer_no_Loss c) by (rewrite ?HX, ?HT; eauto).
       eexists _, _. split; [reflexivity|]. auto. }
  assert (HL' : is_Some (ctx_outputs c !! "Loss")) by (rewrite HL; eauto).
  destruct (decide (DDim_size dx = DDim_size dt)) as [Hrank|Hrank].
  2: { left. rewrite (infer_present c dx dt HX HT HL').
       rewrite bool_decide_eq_false_2 by exact Hrank.
       eexists _, _. split; [reflexivity|]. auto. }
  destruct (violation_or_none (ctx_is_runtime c) dx dt (DDim_size dx))
    as [Hex | Hnone].
  { left. apply least_violation in Hex as (j & Hj & Hv & Hmin).
    rewrite (infer_disagree c dx dt j HX HT HL' Hrank Hj Hv Hmin).
    eexists _, _. split; [reflexivity|]. auto. }
  destruct (Get_string (ctx_attrs c) "reduction") as [r|e] eqn:HG.
  2: { left. rewrite (infer_agree c dx dt HX HT HL' Hrank Hnone).
       rewrite finish_infer_run. cbn [st_ctx called]. rewrite HG.
       eexists _, _. split; [reflexivity|]. auto 6. }
  destruct (reduction_valid r) eqn:Hv.
  - right. exists dx, dt, r.
    assert (Hacc : infer_accepts c dx dt r).
    { repeat split; try assumption.
      unfold Get_string in HG.
      destruct (ctx_attrs c !! "reduction") as [[]|]; congruence. }
    split; [exact Hacc | exact (infer_accepts_run c dx dt r Hacc)].
  - left. rewrite (infer_agree c dx dt HX HT HL' Hrank Hnone).
    rewrite finish_infer_run. cbn [st_ctx called]. rewrite HG, Hv.
    eexists _, _. split; [reflexivity|]. auto 6.
Qed.

(** X2: whatever the context, InferShape reads the shape of no input other
    than X and Target and no attribute other than reduction, and leaves the
    attributes and the runtime flag as they were.  It asks to write an
    output shape only when it returns normally, and then exactly once, as
    its last call, on Loss, with the shape it read for X or the shape [1];
    when it throws, no output shape has been written. *)
Theorem KLDivLoss_InferShape_frame (c : InferShapeContext) :
  (forall n, CallGetInputDim n ∈
               st_calls (snd (run_infer KLDivLossOp_InferShape c)) ->
             n = "X" \/ n = "Target") /\
  (forall n, CallAttrsGet n ∈
               st_calls (snd (run_infer KLDivLossOp_InferShape c)) ->
             n = "reduction") /\
  (forall n d, CallSetOutputDim n d ∈
                 st_calls (snd (run_infer KLDivLossOp_InferShape c)) ->
     n = "Loss" /\
     fst (run_infer KLDivLossOp_InferShape c) = Ok tt /\
     (ctx_inputs c !! "X" = Some d \/ d = [1%Z]) /\
     exists before,
       st_calls (snd (run_infer KLDivLossOp_InferShape c))
         = (before ++ [CallSetOutputDim "Loss" d])%list /\
       forall n' d', CallSetOutputDim n' d' ∉ before) /\
  (fst (run_infer KLDivLossOp_InferShape c) = Ok tt ->
   exists d, CallSetOutputDim "Loss" d ∈
               st_calls (snd (run_infer KLDivLossOp_InferShape c))) /\
  ctx_attrs (st_ctx (snd (run_infer KLDivLossOp_InferShape c)))
    = ctx_attrs c /\
  ctx_is_runtime (st_ctx (snd (run_infer KLDivLossOp_InferShape c)))
    = ctx_is_runtime c.
Proof.
  assert (Hin : forall (x : CtxCall) l, x ∈ l <-> In x l)
    by (intros; apply list_elem_of_In).
  destruct (infer_trace c)
    as [(e & calls & Hrun & Hcalls) | (dx & dt & r & Hacc & Hrun)];
    rewrite Hrun; cbn [fst snd st_ctx st_calls].
  - unfold presence_calls, read_calls in Hcalls.
    destruct Hcalls as [-> | [-> | [-> | [-> | ->]]]];
      (split; [intros n; rewrite Hin; cbn; intuition congruence|]);
      (split; [intros n; rewrite Hin; cbn; intuition congruence|]);
      (split; [intros n d; rewrite Hin; cbn; intuition discriminate|]);
      (split; [discriminate|]); split; reflexivity.
  - destruct Hacc as (HX & _).
    unfold set_output, presence_calls, read_calls.
    cbn [ctx_attrs ctx_is_runtime].
    split; [intros n; rewrite Hin; cbn; intuition congruence|].
    split; [intros n; rewrite Hin; cbn; intuition congruence|].
    split.
    { intros n d. rewrite Hin. cbn.
      intros [H|[H|[H|[H|[H|[H|[H|[]]]]]]]]; try discriminate H.
      injection H as <- <-.
      split; [reflexivity|]. split; [reflexivity|].
      split.
      { unfold out_shape. destruct (String.eqb "none" r); auto. }
      exists (read_calls ++ [CallAttrsGet "reduction"])%list.
      split; [reflexivity|].
      intros n' d'. rewrite Hin. cbn. intuition discriminate. }
    split; [intros _; eexists; rewrite Hin; cbn; auto 10|].
    split; reflexivity.
Qed.

Lemma violates_runtime_of_static (dx dt : DDim) (j : nat) :
  violates false dx dt j -> violates true dx dt j.
Proof. intros [_ Hne]. split; [reflexivity | exact Hne]. Qed.

Lemma infer_accepts_static (c : InferShapeContext) (dx dt : DDim) (r : string) :
  infer_accepts (with_runtime true c) dx dt r ->
  infer_accepts (with_runtime false c) dx dt r.
Proof.
  intros (HX & HT & HL & [Hrank Hall] & HR & Hv).
  repeat split; try assumption.
  intros j Hj Hvj. apply (Hall j Hj). apply violates_runtime_of_static.
  exact Hvj.
Qed.

(** X3: the graph-construction check never rejects what the runtime check
    accepts: if InferShape returns on a context taken as the runtime one, it
    returns on the same context taken as the construction one, and binds the
    same output shapes. *)
Theorem KLDivLoss_InferShape_static_no_stricter (c : InferShapeContext) :
  fst (run_infer KLDivLossOp_InferShape (with_runtime true c)) = Ok tt ->
  fst (run_infer KLDivLossOp_InferShape (with_runtime false c)) = Ok tt /\
  ctx_outputs (st_ctx (snd (run_infer KLDivLossOp_InferShape
                              (with_runtime false c))))
  = ctx_outputs (st_ctx (snd (run_infer KLDivLossOp_InferShape
                                (with_runtime true c)))).
Proof.
  intros Hok.
  destruct (infer_cases (with_runtime true c))
    as [(dx & dt & r & Hacc) | [_ (e & calls & Hrun & _)]].
  - rewrite (infer_accepts_run _ dx dt r Hacc).
    rewrite (infer_accepts_run _ dx dt r (infer_accepts_static c dx dt r Hacc)).
    split; reflexivity.
  - rewrite Hrun in Hok. discriminate.
Qed.

Lemma DDim_at_positive (d : DDim) (j : nat) :
  Forall (fun z => (0 < z)%Z) d -> j < DDim_size d -> (0 < DDim_at d j)%Z.
Proof.
  intros Hall Hj. unfold DDim_at, DDim_size in *.
  rewrite List.Forall_forall in Hall. apply Hall. apply nth_In. exact Hj.
Qed.

Lemma violates_flag_indep (rt rt' : bool) (dx dt : DDim) (j : nat) :
  (0 < DDim_at dx j)%Z -> (0 < DDim_at dt j)%Z ->
  violates rt dx dt j -> violates rt' dx dt j.
Proof.
  intros Hx Ht [_ Hne]. split; [|exact Hne].
  apply Z.ltb_lt in Hx, Ht. rewrite Hx, Ht. apply orb_true_r.
Qed.

(** X4: when every size of X and of Target is strictly positive, InferShape
    gives the same result, the same error included, whether the context is
    the construction one or the runtime one. *)
Theorem KLDivLoss_InferShape_static_shapes_agree
    (c : InferShapeContext) (dx dt : DDim) :
  ctx_inputs c !! "X" = Some dx ->
  ctx_inputs c !! "Target" = Some dt ->
  Forall (fun z => (0 < z)%Z) dx ->
  Forall (fun z => (0 < z)%Z) dt ->
  fst (run_infer KLDivLossOp_InferShape (with_runtime false c))
  = fst (run_infer KLDivLossOp_InferShape (with_runtime true c)) /\
  ctx_outputs (st_ctx (snd (run_infer KLDivLossOp_InferShape
                              (with_runtime false c))))
  = ctx_outputs (st_ctx (snd (run_infer KLDivLossOp_InferShape
                                (with_runtime true c)))).
Proof.
  intros HX HT Hpx Hpt.
  destruct (ctx_outputs c !! "Loss") as [d|] eqn:HL.
  2: { rewrite !infer_no_Loss by (cbn; rewrite ?HX, ?HT; eauto).
       split; reflexivity. }
  assert (HL' : forall b, is_Some (ctx_outputs (with_runtime b c) !! "Loss"))
    by (intros b; cbn; rewrite HL; eauto).
  destruct (decide (DDim_size dx = DDim_size dt)) as [Hrank|Hrank].
  2: { rewrite !(infer_present _ dx dt) by (try apply HL'; assumption).
       rewrite !bool_decide_eq_false_2 by exact Hrank. split; reflexivity. }
  destruct (violation_or_none false dx dt (DDim_size dx)) as [Hex | Hnone].
  - apply least_violation in Hex as (j & Hj & Hv & Hmin).
    rewrite (infer_disagree (with_runtime false c) dx dt j HX HT (HL' false)
               Hrank Hj Hv Hmin).
    rewrite (infer_disagree (with_runtime true c) dx dt j HX HT (HL' true)
               Hrank Hj).
    + split; reflexivity.
    + apply violates_runtime_of_static. exact Hv.
    + intros k Hk Hvk. apply (Hmin k Hk).
      apply (violates_flag_indep true false); [| |exact Hvk];
        apply DDim_at_positive; try assumption; [lia|].
      rewrite <- Hrank. lia.
  - assert (Hnone' : forall j, j < DDim_size dx -> ~ violates true dx dt j).
    { intros j Hj Hvj. apply (Hnone j Hj).
      apply (violates_flag_indep true false); [| |exact Hvj];
        apply DDim_at_positive; try assumption.
      rewrite <- Hrank. exact Hj. }
    rewrite (infer_agree (with_runtime false c) dx dt HX HT (HL' false)
               Hrank Hnone).
    rewrite (infer_agree (with_runtime true c) dx dt HX HT (HL' true)
               Hrank Hnone').
    rewrite !finish_infer_run. cbn [st_ctx called with_runtime ctx_attrs].
    destruct (Get_string (ctx_attrs c) "reduction") as [r|e];
      [|split; reflexivity].
    destruct (reduction_valid r); [|split; reflexivity].
    rewrite !SetOutputDim_run.
    cbn [st_ctx called with_runtime ctx_outputs]. rewrite HL.
    split; reflexivity.
Qed.

(** X5: at runtime InferShape returns only if the shapes of X and Target
    are the same sequence of sizes; the shape bound to Loss under "none" is
    then the shape of Target as well. *)
Theorem KLDivLoss_InferShape_runtime_equal_shapes
    (c : InferShapeContext) (dx dt : DDim) :
  ctx_is_runtime c = true ->
  ctx_inputs c !! "X" = Some dx ->
  ctx_inputs c !! "Target" = Some dt ->
  fst (run_infer KLDivLossOp_InferShape c) = Ok tt ->
  dx = dt.
Proof.
  intros Hrt HX HT Hok.
  destruct (infer_cases c) as [(dx' & dt' & r & Hacc) | [_ (e & calls & Hrun & _)]].
  2: { rewrite Hrun in Hok. discriminate. }
  destruct Hacc as (HX' & HT' & _ & [Hrank Hall] & _).
  assert (dx' = dx) as -> by congruence.
  assert (dt' = dt) as -> by congruence.
  apply (nth_ext dx dt 0%Z 0%Z); [exact Hrank|].
  intros j Hj. destruct (decide (nth j dx 0%Z = nth j dt 0%Z)) as [Heq|Hne];
    [exact Heq|].
  exfalso. apply (Hall j Hj). rewrite Hrt. split; [reflexivity | exact Hne].
Qed.

(** ** The outcome of the backward shape inference *)

Lemma grad_infer_no_X (c : InferShapeContext) :
  ctx_inputs c !! "X" = None ->
  run_infer KLDivLossOpGrad_InferShape c =
  (Throw (NotFound_InOut "Input" "X" "KLDivLossGrad"),
   MkSt c [CallHasInput "X"]).
Proof.
  intros HX. unfold run_infer, KLDivLossOpGrad_InferShape.
  rewrite bind_run, check_input_run. cbn [st_ctx].
  rewrite HX, bool_decide_eq_false_2 by (intros [? ?]; discriminate).
  reflexivity.
Qed.

Lemma grad_infer_no_Target (c : InferShapeContext) :
  is_Some (ctx_inputs c !! "X") ->
  ctx_inputs c !! "Target" = None ->
  run_infer KLDivLossOpGrad_InferShape c =
  (Throw (NotFound_InOut "Input" "Target" "KLDivLossGrad"),
   MkSt c [CallHasInput "X"; CallHasInput "Target"]).
Proof.
  intros HX HT. unfold run_infer, KLDivLossOpGrad_InferShape.
  rewrite bind_run, check_input_run. cbn [st_ctx].
  rewrite bool_decide_eq_true_2 by exact HX.
  rewrite bind_run, check_input_run. cbn [st_ctx called].
  rewrite HT, bool_decide_eq_false_2 by (intros [? ?]; discriminate).
  reflexivity.
Qed.

Lemma grad_infer_no_LossGrad (c : InferShapeContext) :
  is_Some (ctx_inputs c !! "X") ->
  is_Some (ctx_inputs c !! "Target") ->
  ctx_inputs c !! "Loss@GRAD" = None ->
  run_infer KLDivLossOpGrad_InferShape c =
  (Throw (NotFound_InOut "Input" "Loss@GRAD" "KLDivLossGrad"),
   MkSt c [CallHasInput "X"; CallHasInput "Target"; CallHasInput "Loss@GRAD"]).
Proof.
  intros HX HT HG. unfold run_infer, KLDivLossOpGrad_InferShape.
  change (GradVarName "Loss") with "Loss@GRAD".
  rewrite bind_run, check_input_run. cbn [st_ctx].
  rewrite bool_decide_eq_true_2 by exact HX.
  rewrite bind_run, check_input_run. cbn [st_ctx called].
  rewrite bool_decide_eq_true_2 by exact HT.
  rewrite bind_run, check_input_run. cbn [st_ctx called].
  rewrite HG, bool_decide_eq_false_2 by (intros [? ?]; discriminate).
  reflexivity.
Qed.

Lemma grad_infer_present (c : InferShapeContext) (dx : DDim) :
  ctx_inputs c !! "X" = Some dx ->
  is_Some (ctx_inputs c !! "Target") ->
  is_Some (ctx_inputs c !! "Loss@GRAD") ->
  run_infer KLDivLossOpGrad_InferShape c =
  match ctx_outputs c !! "X@GRAD" with
  | Some _ => (Ok tt, MkSt (set_output "X@GRAD" dx c)
                        (grad_calls ++ [CallSetOutputDim "X@GRAD" dx])%list)
  | None => (Ok tt, MkSt c grad_calls)
  end.
Proof.
  intros HX HT HG. unfold run_infer, KLDivLossOpGrad_InferShape.
  change (GradVarName "Loss") with "Loss@GRAD".
  change (GradVarName "X") with "X@GRAD".
  rewrite bind_run, check_input_run. cbn [st_ctx].
  rewrite bool_decide_eq_true_2 by (rewrite HX; eauto).
  rewrite bind_run, check_input_run. cbn [st_ctx called].
  rewrite bool_decide_eq_true_2 by exact HT.
  rewrite bind_run, check_input_run. cbn [st_ctx called].
  rewrite bool_decide_eq_true_2 by exact HG.
  rewrite bind_run, GetInputDim_run. cbn [st_ctx called st_calls].
  unfold lookup_var at 1. rewrite HX.
  rewrite bind_run. unfold HasOutput. rewrite bind_run.
  unfold record, inspect. cbn [st_ctx st_calls called app].
  destruct (ctx_outputs c !! "X@GRAD") as [d|] eqn:HO.
  - rewrite bool_decide_eq_true_2 by eauto.
    rewrite SetOutputDim_run. cbn [st_ctx st_calls called app].
    rewrite HO. reflexivity.
  - rewrite bool_decide_eq_false_2 by (intros [? ?]; discriminate).
    reflexivity.
Qed.

(** X7: when X, Target or Loss@GRAD is not bound, the backward InferShape
    throws the NotFound error of the first missing one, naming the operator
    KLDivLossGrad, before any shape is read or written. *)
Theorem KLDivLossGrad_InferShape_presence (c : InferShapeContext) :
  ctx_inputs c !! "X" = None \/ ctx_inputs c !! "Target" = None \/
  ctx_inputs c !! "Loss@GRAD" = None ->
  exists name calls,
    run_infer KLDivLossOpGrad_InferShape c =
      (Throw (NotFound_InOut "Input" name "KLDivLossGrad"), MkSt c calls) /\
    ctx_inputs c !! name = None /\
    (name = "X" \/
     name = "Target" /\ is_Some (ctx_inputs c !! "X") \/
     name = "Loss@GRAD" /\ is_Some (ctx_inputs c !! "X") /\
       is_Some (ctx_inputs c !! "Target")) /\
    (forall n, CallGetInputDim n ∉ calls) /\
    (forall n d, CallSetOutputDim n d ∉ calls).
Proof.
  intros Habs.
  destruct (ctx_inputs c !! "X") as [dx|] eqn:HX.
  2: { exists "X". eexists. rewrite (grad_infer_no_X c HX).
       split; [reflexivity|]. split; [exact HX|]. split; [tauto|].
       split; intros; rewrite list_elem_of_In; cbn; intuition discriminate. }
  destruct (ctx_inputs c !! "Target") as [dt|] eqn:HT.
  2: { exists "Target". eexists.
       rewrite (grad_infer_no_Target c) by (rewrite ?HX; eauto).
       split; [reflexivity|]. split; [exact HT|]. split; [eauto|].
       split; intros; rewrite list_elem_of_In; cbn; intuition discriminate. }
  destruct Habs as [Habs | [Habs | HG]]; try discriminate.
  exists "Loss@GRAD". eexists.
  rewrite (grad_infer_no_LossGrad c) by (rewrite ?HX, ?HT; eauto).
  split; [reflexivity|]. split; [exact HG|]. split; [eauto 6|].
  split; intros; rewrite list_elem_of_In; cbn; intuition discriminate.
Qed.

(** X8: whatever the context, the backward InferShape reads no attribute
    and no shape other than that of X, asks to write no output shape other
    than that of X@GRAD, which it sets to the shape it read for X, writes
    nothing when it throws, leaves the attributes and the runtime flag as
    they were, and can fail only with the NotFound error of a missing
    input: it never compares the shapes of X and Target. *)
Theorem KLDivLossGrad_InferShape_frame (c : InferShapeContext) :
  (forall n, CallAttrsGet n ∉
               st_calls (snd (run_infer KLDivLossOpGrad_InferShape c))) /\
  (forall n, CallGetInputDim n ∈
               st_calls (snd (run_infer KLDivLossOpGrad_InferShape c)) ->
             n = "X") /\
  (forall n d, CallSetOutputDim n d ∈
                 st_calls (snd (run_infer KLDivLossOpGrad_InferShape c)) ->
               n = "X@GRAD" /\ ctx_inputs c !! "X" = Some d /\
               fst (run_infer KLDivLossOpGrad_InferShape c) = Ok tt) /\
  ctx_attrs (st_ctx (snd (run_infer KLDivLossOpGrad_InferShape c)))
    = ctx_attrs c /\
  ctx_is_runtime (st_ctx (snd (run_infer KLDivLossOpGrad_InferShape c)))
    = ctx_is_runtime c /\
  (forall e, fst (run_infer KLDivLossOpGrad_InferShape c) = Throw e ->
     exists name, e = NotFound_InOut "Input" name "KLDivLossGrad" /\
                  ctx_inputs c !! name = None).
Proof.
  assert (Hin : forall (x : CtxCall) l, x ∈ l <-> In x l)
    by (intros; apply list_elem_of_In).
  destruct (ctx_inputs c !! "X") as [dx|] eqn:HX.
  2: { rewrite (grad_infer_no_X c HX). cbn [fst snd st_ctx st_calls].
       repeat split; try reflexivity; intros; rewrite ?Hin in *; cbn in *;
         try intuition discriminate.
       exists "X". split; congruence. }
  destruct (ctx_inputs c !! "Target") as [dt|] eqn:HT.
  2: { rewrite (grad_infer_no_Target c) by (rewrite ?HX; eauto).
       cbn [fst snd st_ctx st_calls].
       repeat split; try reflexivity; intros; rewrite ?Hin in *; cbn in *;
         try intuition discriminate.
       exists "Target". split; congruence. }
  destruct (ctx_inputs c !! "Loss@GRAD") as [dg|] eqn:HG.
  2: { rewrite (grad_infer_no_LossGrad c) by (rewrite ?HX, ?HT; eauto).
       cbn [fst snd st_ctx st_calls].
       repeat split; try reflexivity; intros; rewrite ?Hin in *; cbn in *;
         try intuition discriminate.
       exists "Loss@GRAD". split; congruence. }
  rewrite (grad_infer_present c dx) by (rewrite ?HX, ?HT, ?HG; eauto).
  destruct (ctx_outputs c !! "X@GRAD") as [d|] eqn:HO;
    cbn [fst snd st_ctx st_calls].
  - unfold set_output. cbn [ctx_attrs ctx_is_runtime].
    split; [intros n; rewrite Hin; cbn; intuition discriminate|].
    split; [intros n; rewrite Hin; cbn; intuition congruence|].
    split; [intros n d'; rewrite Hin; cbn; intuition congruence|].
    split; [reflexivity|]. split; [reflexivity|].
    intros e He. discriminate.
  - split; [intros n; rewrite Hin; cbn; intuition discriminate|].
    split; [intros n; rewrite Hin; cbn; intuition congruence|].
    split; [intros n d'; rewrite Hin; cbn; intuition discriminate|].
    split; [reflexivity|]. split; [reflexivity|].
    intros e He. discriminate.
Qed.

(** X9: the gradient maker and the backward InferShape agree on the slots
    of the backward node: the inputs InferShape asks for are exactly the
    input slots the maker binds, and the output it asks for is exactly the
    output slot the maker binds; the forward output Loss is not among
    them. *)
Theorem KLDivLoss_gradient_slots_match
    (fwd : OpDesc) (outputGradientNames : gmap string (list string))
    (c : InferShapeContext) :
  is_Some (ctx_inputs c !! "X") ->
  is_Some (ctx_inputs c !! "Target") ->
  is_Some (ctx_inputs c !! "Loss@GRAD") ->
  Forall (fun op =>
    (forall n, CallHasInput n ∈
                 st_calls (snd (run_infer KLDivLossOpGrad_InferShape c))
               <-> n ∈ dom (op_inputs op)) /\
    (forall n, CallHasOutput n ∈
                 st_calls (snd (run_infer KLDivLossOpGrad_InferShape c))
               <-> n ∈ dom (op_outputs op)) /\
    "Loss" ∉ dom (op_inputs op))
    (buildGradient fwd outputGradientNames).
Proof.
  intros [dx HX] HT HG.
  assert (Hin : forall (x : CtxCall) l, x ∈ l <-> In x l)
    by (intros; apply list_elem_of_In).
  unfold buildGradient. constructor; [|constructor].
  rewrite Apply_fields. cbn [op_inputs op_outputs empty_op].
  rewrite !dom_insert_L, !dom_empty_L.
  rewrite (grad_infer_present c dx HX HT HG).
  split; [|split].
  - intros n. destruct (ctx_outputs c !! "X@GRAD");
      cbn [snd st_calls]; rewrite Hin; cbn;
      rewrite !elem_of_union, !elem_of_singleton, elem_of_empty;
      intuition congruence.
  - intros n. destruct (ctx_outputs c !! "X@GRAD");
      cbn [snd st_calls]; rewrite Hin; cbn;
      rewrite !elem_of_union, !elem_of_singleton, elem_of_empty;
      intuition congruence.
  - rewrite !elem_of_union, !elem_of_singleton, elem_of_empty.
    intuition discriminate.
Qed.

(** X13: the presence checks guard every access: neither shape inference
    ever fails on reading the shape of an unbound input or writing the
    shape of an unbound output. *)
Theorem KLDivLoss_InferShape_guarded (c : InferShapeContext) (n : string) :
  fst (run_infer KLDivLossOp_InferShape c) <> Throw (NotFound_Var n) /\
  fst (run_infer KLDivLossOpGrad_InferShape c) <> Throw (NotFound_Var n).
Proof.
  split.
  - destruct (infer_cases c)
      as [(dx & dt & r & Hacc) | [_ (e & calls & Hrun & Hne)]].
    + rewrite (infer_accepts_run c dx dt r Hacc). discriminate.
    + rewrite Hrun. cbn. intros [= ->]. exact (Hne n eq_refl).
  - destruct (ctx_inputs c !! "X") as [dx|] eqn:HX;
      [|rewrite (grad_infer_no_X c HX); discriminate].
    destruct (ctx_inputs c !! "Target") as [dt|] eqn:HT;
      [|rewrite (grad_infer_no_Target c) by (rewrite ?HX; eauto);
        discriminate].
    destruct (ctx_inputs c !! "Loss@GRAD") as [dg|] eqn:HG;
      [|rewrite (grad_infer_no_LossGrad c) by (rewrite ?HX, ?HT; eauto);
        discriminate].
    rewrite (grad_infer_present c dx) by (rewrite ?HX, ?HT, ?HG; eauto).
    destruct (ctx_outputs c !! "X@GRAD"); discriminate.
Qed.

(** ** The registered kernels *)

Lemma kldiv_loss_grad_kernels :
  AllOpKernels !! "kldiv_loss_grad" =
  Some [(MkKernelType FP32 CPUPlace,
         KLDivLossGradKernel CPUDeviceContext c_float);
        (MkKernelType FP64 CPUPlace,
         KLDivLossGradKernel CPUDeviceContext c_double)].
Proof.
  unfold AllOpKernels, REGISTER_OP_CPU_KERNEL at 1.
  rewrite lookup_insert_eq.
  unfold REGISTER_OP_CPU_KERNEL. rewrite lookup_insert_ne by discriminate.
  rewrite lookup_empty. reflexivity.
Qed.



(** X11: for a kldiv_loss_grad node whose Loss@GRAD has data type t, the
    expected kernel type has a registered kernel exactly on the CPU place
    with t float32 (the float kernel) or float64 (the double kernel); and a
    kernel type has a backward kernel exactly when it has a forward one, of
    the same element type. *)
Theorem kldiv_loss_grad_kernel_selection
    (ctx : ExecutionContext) (t : VarType) :
  exec_dtypes ctx !! "Loss@GRAD" = Some t ->
  exists key,
    KLDivLossOpGrad_GetExpectedKernelType ctx = Ok key /\
    (kernel_for "kldiv_loss_grad" key
       = Some (KLDivLossGradKernel CPUDeviceContext c_float)
     <-> exec_place ctx = CPUPlace /\ t = FP32) /\
    (kernel_for "kldiv_loss_grad" key
       = Some (KLDivLossGradKernel CPUDeviceContext c_double)
     <-> exec_place ctx = CPUPlace /\ t = FP64) /\
    (kernel_for "kldiv_loss_grad" key = None
     <-> ~ (exec_place ctx = CPUPlace /\ (t = FP32 \/ t = FP64))) /\
    (kernel_T <$> kernel_for "kldiv_loss_grad" key
     = kernel_T <$> kernel_for "kldiv_loss" key).
Proof.
  intros Ht. exists (MkKernelType t (exec_place ctx)).
  split.
  { unfold KLDivLossOpGrad_GetExpectedKernelType, IndicateVarDataType, GetPlace.
    change (GradVarName "Loss") with "Loss@GRAD". rewrite Ht. reflexivity. }
  unfold kernel_for. rewrite kldiv_loss_grad_kernels, kldiv_loss_kernels.
  cbn [default]. destruct ctx as [p m]. cbn [exec_place].
  destruct p, t; cbn; (repeat split; try intros [? ?]; try intros ?;
    try discriminate; try congruence; try tauto; intuition discriminate).
Qed.

(** ** The declared default of the attribute *)

Lemma fill_defaults_Make (attrs : AttributeMap) :
  fill_defaults (KLDivLossOpMaker_Make (MkProto [] [] [])) attrs =
  match attrs !! "reduction" with
  | None => <["reduction" := AttrString "mean"]> attrs
  | Some _ => attrs
  end.
Proof. reflexivity. Qed.

(** X12: a node whose creator leaves reduction unset gets the maker's
    default "mean", which InferShape accepts: with the shape checks passing
    InferShape returns and binds [1] to Loss.  A value the creator supplies
    is kept as it is. *)
Theorem KLDivLoss_default_reduction
    (c : InferShapeContext) (supplied : AttributeMap) (dx dt : DDim) :
  ctx_attrs c
    = fill_defaults (KLDivLossOpMaker_Make (MkProto [] [] [])) supplied ->
  ctx_inputs c !! "X" = Some dx ->
  ctx_inputs c !! "Target" = Some dt ->
  is_Some (ctx_outputs c !! "Loss") ->
  shape_checks_pass (ctx_is_runtime c) dx dt ->
  (supplied !! "reduction" = None ->
   fst (run_infer KLDivLossOp_InferShape c) = Ok tt /\
   ctx_outputs (st_ctx (snd (run_infer KLDivLossOp_InferShape c))) !! "Loss"
     = Some [1%Z]) /\
  (forall a, supplied !! "reduction" = Some a ->
     ctx_attrs c !! "reduction" = Some a).
Proof.
  intros Hattrs HX HT HL Hs. rewrite fill_defaults_Make in Hattrs.
  split.
  - intros Hnone. rewrite Hnone in Hattrs.
    assert (Hacc : infer_accepts c dx dt "mean").
    { repeat split; try assumption; try apply Hs.
      rewrite Hattrs. apply lookup_insert_eq. }
    rewrite (infer_accepts_run c dx dt "mean" Hacc). cbn [fst snd st_ctx].
    split; [reflexivity|]. unfold set_output. cbn [ctx_outputs].
    apply lookup_insert_eq.
  - intros a Ha. rewrite Ha in Hattrs. rewrite Hattrs. exact Ha.
Qed.

(** ** Instances of the further properties *)

(** Shapes [4,10] accepted at runtime are accepted at construction. *)
Lemma KLDivLoss_InferShape_static_no_stricter_witness :
  fst (run_infer KLDivLossOp_InferShape
         (with_runtime false (scenario [4; 10]%Z [4; 10]%Z "none" false)))
  = Ok tt.
Proof.
  apply (KLDivLoss_InferShape_static_no_stricter
           (scenario [4; 10]%Z [4; 10]%Z "none" false)).
  reflexivity.
Defined.

(** X [4,10] against Target [4,5]: the same error in both contexts. *)
Lemma KLDivLoss_InferShape_static_shapes_agree_witness :
  fst (run_infer KLDivLossOp_InferShape
         (with_runtime false (scenario [4; 10]%Z [4; 5]%Z "mean" false)))
  = fst (run_infer KLDivLossOp_InferShape
           (with_runtime true (scenario [4; 10]%Z [4; 5]%Z "mean" false))).
Proof.
  apply (KLDivLoss_InferShape_static_shapes_agree
           (scenario [4; 10]%Z [4; 5]%Z "mean" false) [4; 10]%Z [4; 5]%Z).
  - reflexivity.
  - reflexivity.
  - repeat constructor.
  - repeat constructor.
Defined.

(** A runtime context that InferShape accepts. *)
Lemma KLDivLoss_InferShape_runtime_equal_shapes_witness :
  fst (run_infer KLDivLossOp_InferShape
         (scenario [4; 10]%Z [4; 10]%Z "sum" true)) = Ok tt /\
  [4; 10]%Z = [4; 10]%Z.
Proof.
  split; [reflexivity|].
  apply (KLDivLoss_InferShape_runtime_equal_shapes
           (scenario [4; 10]%Z [4; 10]%Z "sum" true) [4; 10]%Z [4; 10]%Z);
    reflexivity.
Defined.

(** A backward node with Loss@GRAD unbound. *)
Lemma KLDivLossGrad_InferShape_presence_witness :
  exists name calls,
    run_infer KLDivLossOpGrad_InferShape
      (MkCtx (<["Target" := [4; 10]%Z]> (<["X" := [4; 10]%Z]> ∅)) ∅ ∅ false)
    = (Throw (NotFound_InOut "Input" name "KLDivLossGrad"),
       MkSt (MkCtx (<["Target" := [4; 10]%Z]> (<["X" := [4; 10]%Z]> ∅))
                   ∅ ∅ false) calls).
Proof.
  destruct (KLDivLossGrad_InferShape_presence
              (MkCtx (<["Target" := [4; 10]%Z]> (<["X" := [4; 10]%Z]> ∅))
                     ∅ ∅ false))
    as (name & calls & Hrun & _).
  - right. right. reflexivity.
  - exists name, calls. exact Hrun.
Defined.

(** The gradient of the forward node over x, t and l against a backward
    context with its three inputs bound. *)
Lemma KLDivLoss_gradient_slots_match_witness :
  Forall (fun op => "Loss" ∉ dom (op_inputs op))
         (buildGradient forward_node {["Loss" := ["Loss@GRAD"]]}).
Proof.
  eapply Forall_impl.
  - apply (KLDivLoss_gradient_slots_match forward_node
             {["Loss" := ["Loss@GRAD"]]} (grad_scenario [4; 10]%Z ∅)).
    + exists [4; 10]%Z. reflexivity.
    + exists [4; 10]%Z. reflexivity.
    + exists [1%Z]. reflexivity.
  - intros op (_ & _ & H). exact H.
Defined.


(** A backward execution on the CPU with a float64 gradient. *)
Lemma kldiv_loss_grad_kernel_selection_witness :
  exists key,
    KLDivLossOpGrad_GetExpectedKernelType
      (MkExec CPUPlace (<["Loss@GRAD" := FP64]> ∅)) = Ok key /\
    kernel_T <$> kernel_for "kldiv_loss_grad" key
    = kernel_T <$> kernel_for "kldiv_loss" key.
Proof.
  destruct (kldiv_loss_grad_kernel_selection
              (MkExec CPUPlace (<["Loss@GRAD" := FP64]> ∅)) FP64)
    as (key & Hk & _ & _ & _ & Hsame); [reflexivity|].
  exists key. split; assumption.
Defined.

(** A node created without a reduction attribute. *)
Lemma KLDivLoss_default_reduction_witness :
  ctx_outputs (st_ctx (snd (run_infer KLDivLossOp_InferShape
     (scenario [4; 10]%Z [4; 10]%Z "mean" false)))) !! "Loss" = Some [1%Z].
Proof.
  destruct (KLDivLoss_default_reduction
              (scenario [4; 10]%Z [4; 10]%Z "mean" false) ∅
              [4; 10]%Z [4; 10]%Z) as [Hdefault _].
  - reflexivity.
  - reflexivity.
  - reflexivity.
  - exists []. reflexivity.
  - split; [reflexivity|]. intros j Hj [_ Hne]. apply Hne. reflexivity.
  - apply Hdefault. reflexivity.
Defined.

(** * The option checks of the build script *)

Import CMake.

Lemma script_bind_run {A B : Type} (m : Script A) (f : A -> Script B)
    (b : Build) :
  (m ≫= f) b =
  match m b with
  | (Running a, b') => f a b'
  | (Returned, b') => (Returned, b')
  | (FatalError t, b') => (FatalError t, b')
  end.
Proof. reflexivity. Qed.

(** The three sections before the sanitizer check always run through: they
    fill the defaults and leave the other variables as they are. *)
Lemma configure_after_defaults (v : Vars) :
  configure v =
  (sanitizer ;; windows ;; nccl ;; brpc_rdma)
    (MkBuild
       (MkVars (WIN32 v) (Some (default "2.7" (PY_VERSION v)))
          (Some (default "2.7" (PY_VERSION v)))
          (Some (default "Release" (CMAKE_BUILD_TYPE v)))
          (REPLACE_ENFORCE_GLOG v) (SANITIZER_TYPE v) (WITH_DISTRIBUTE v)
          (WITH_NCCL v) (WITH_GPU v) (WITH_BRPC_RDMA v) (WITH_GRPC v))
       (if REPLACE_ENFORCE_GLOG v
        then [AddDefinitions "-DREPLACE_ENFORCE_GLOG"] else [])).
Proof.
  destruct v as [w py pb bt glog san d n g r gr].
  destruct py, bt, glog; reflexivity.
Qed.

Lemma sanitizer_run (b : Build) :
  sanitizer b =
  if sanitizer_rejected (vars b)
  then (Returned,
        MkBuild (vars b)
          (events b ++ [Message NOTICE "Choose the correct type of sanitizer"]))
  else (Running tt, b).
Proof.
  unfold sanitizer. rewrite script_bind_run. unfold read.
  destruct (sanitizer_rejected (vars b)); reflexivity.
Qed.

(** Runs the checks on every value of the option variables. *)
Ltac run_checks v :=
  rewrite (configure_after_defaults v);
  rewrite script_bind_run, sanitizer_run;
  destruct v as [w py pb bt glog san d n g r gr];
  cbn [vars events]; unfold sanitizer_rejected;
  cbn [SANITIZER_TYPE WIN32 WITH_DISTRIBUTE WITH_NCCL WITH_GPU WITH_BRPC_RDMA
       WITH_GRPC REPLACE_ENFORCE_GLOG];
  destruct san as [s|]; [destruct (sanitizer_matches s)|];
  cbn [negb];
  destruct w, d, n, g, r, gr, glog; vm_compute.

(** X14: the definition PADDLE_WITH_NCCL is added, and the package Nccl
    looked for, exactly when the sanitizer check lets the script go on and
    WITH_NCCL and WITH_GPU are on off Windows; after the checks WITH_NCCL is
    on only then. *)
Theorem cmake_nccl_needs_gpu_off_windows (v : Vars) :
  (In (AddDefinitions "-DPADDLE_WITH_NCCL") (events (snd (configure v))) <->
   sanitizer_rejected v = false /\ WITH_NCCL v = true /\
   WITH_GPU v = true /\ WIN32 v = false) /\
  (In (FindPackage "Nccl") (events (snd (configure v))) <->
   In (AddDefinitions "-DPADDLE_WITH_NCCL") (events (snd (configure v)))) /\
  (sanitizer_rejected v = false ->
   WITH_NCCL (vars (snd (configure v)))
   = WITH_NCCL v && WITH_GPU v && negb (WIN32 v)).
Proof.
  run_checks v; intuition (try discriminate; try congruence).
Qed.

(** X15: the script stops with a fatal error exactly when the sanitizer
    check lets it go on and WITH_BRPC_RDMA is on with WITH_GRPC on, or with
    WITH_DISTRIBUTE off or forced off on Windows; the grpc message comes
    first, and there is no other fatal error. *)
Theorem cmake_brpc_rdma_fatal (v : Vars) :
  (fst (configure v) = FatalError "Can't use grpc with brpc rdma." <->
   sanitizer_rejected v = false /\ WITH_BRPC_RDMA v = true /\
   WITH_GRPC v = true) /\
  (fst (configure v) = FatalError "Can't use brpc rdma in no distribute env."
   <->
   sanitizer_rejected v = false /\ WITH_BRPC_RDMA v = true /\
   WITH_GRPC v = false /\ (WITH_DISTRIBUTE v = false \/ WIN32 v = true)) /\
  (forall t, fst (configure v) = FatalError t ->
     t = "Can't use grpc with brpc rdma." \/
     t = "Can't use brpc rdma in no distribute env.").
Proof.
  run_checks v;
    (split; [|split]; [| |intros t Ht; inversion Ht; auto]);
    intuition (try discriminate; try congruence).
Qed.

(** X16: when the checks run to their end, the variables they leave are
    consistent: WITH_NCCL is on only with WITH_GPU on and off Windows,
    WITH_DISTRIBUTE is off on Windows, and WITH_BRPC_RDMA is on only with
    WITH_DISTRIBUTE on and WITH_GRPC off. *)
Theorem cmake_consistent_options (v : Vars) :
  fst (configure v) = Running tt ->
  (WITH_NCCL (vars (snd (configure v))) = true ->
   WITH_GPU (vars (snd (configure v))) = true /\
   WIN32 (vars (snd (configure v))) = false) /\
  (WIN32 (vars (snd (configure v))) = true ->
   WITH_DISTRIBUTE (vars (snd (configure v))) = false) /\
  (WITH_BRPC_RDMA (vars (snd (configure v))) = true ->
   WITH_DISTRIBUTE (vars (snd (configure v))) = true /\
   WITH_GRPC (vars (snd (configure v))) = false /\
   WIN32 (vars (snd (configure v))) = false).
Proof.
  run_checks v; intuition (try discriminate; try congruence).
Qed.

Lemma sanitizer_rejected_iff (v : Vars) :
  sanitizer_rejected v = true <->
  exists s, SANITIZER_TYPE v = Some s /\
            s <> "Address" /\ s <> "Leak" /\ s <> "Memory" /\
            s <> "Thread" /\ s <> "Undefined".
Proof.
  unfold sanitizer_rejected, sanitizer_matches.
  destruct (SANITIZER_TYPE v) as [s|].
  - rewrite negb_true_iff, !orb_false_iff, !String.eqb_neq.
    split.
    + intros Hne. exists s. tauto.
    + intros (s' & [= <-] & Hne). tauto.
  - split; [discriminate | intros (s & Hs & _); discriminate].
Qed.

(** X17: a SANITIZER_TYPE that [if] takes for true and that is none of
    Address, Leak, Memory, Thread, Undefined makes the script return after
    one notice: WITH_DISTRIBUTE and WITH_NCCL keep their values, the
    definition PADDLE_WITH_NCCL is not added, and no fatal error is raised
    whatever WITH_BRPC_RDMA is. *)
Theorem cmake_rejected_sanitizer_returns (v : Vars) (s : string) :
  SANITIZER_TYPE v = Some s ->
  s <> "Address" -> s <> "Leak" -> s <> "Memory" -> s <> "Thread" ->
  s <> "Undefined" ->
  fst (configure v) = Returned /\
  events (snd (configure v)) =
    ((if REPLACE_ENFORCE_GLOG v
      then [AddDefinitions "-DREPLACE_ENFORCE_GLOG"] else []) ++
     [Message NOTICE "Choose the correct type of sanitizer"])%list /\
  WITH_DISTRIBUTE (vars (snd (configure v))) = WITH_DISTRIBUTE v /\
  WITH_NCCL (vars (snd (configure v))) = WITH_NCCL v.
Proof.
  intros Hs H1 H2 H3 H4 H5.
  assert (Hrej : sanitizer_rejected v = true).
  { apply sanitizer_rejected_iff. exists s. tauto. }
  rewrite (configure_after_defaults v).
  rewrite script_bind_run, sanitizer_run. cbn [vars events].
  change (sanitizer_rejected (MkVars _ _ _ _ _ _ _ _ _ _ _))
    with (sanitizer_rejected v).
  rewrite Hrej. cbn. repeat split; reflexivity.
Qed.

(** Off Windows with WITH_GPU and WITH_NCCL on. *)
Lemma cmake_consistent_options_witness :
  WITH_GPU (vars (snd (configure
    (MkVars false None None None false None true true true false false))))
  = true /\
  WIN32 (vars (snd (configure
    (MkVars false None None None false None true true true false false))))
  = false.
Proof.
  destruct (cmake_consistent_options
              (MkVars false None None None false None
                      true true true false false)) as [Hnccl _].
  - reflexivity.
  - apply Hnccl. reflexivity.
Defined.

(** SANITIZER_TYPE=address, in lower case, is rejected. *)
Lemma cmake_rejected_sanitizer_returns_witness :
  fst (configure
         (MkVars false None None None false (Some "address")
                 true true true true true)) = Returned.
Proof.
  apply (cmake_rejected_sanitizer_returns
           (MkVars false None None None false (Some "address")
                   true true true true true) "address");
    (reflexivity || discriminate).
Defined.
